(** * Smart Research Assistant: the agent graph and the question budget

    A shallow embedding of [agent_app.py].  The program has two parts:

    - the LangGraph workflow of sections 4-7 of the script: the [agent]
      node, the [call_tool] node, the conditional edge [should_continue]
      and the unconditional edge back to [agent];
    - the Streamlit page of section 9: the per-session message list, the
      question counter, and the block that handles a submitted prompt.

    The language model and the tool node are collaborators of the script;
    they are abstracted by the class [Collaborators].  Every call to a
    collaborator and every call to the page is recorded in a trace, so that
    statements about what was called, on what, and in which order can be
    made.  The graph is run under the recursion limit of its runtime, whose
    default value is the library's and is a parameter of the run.  The
    console [print] calls of the script are not modelled. *)

From Stdlib Require Import List String ZArith Lia Bool Arith.
Import ListNotations.
Local Open Scope string_scope.
Local Open Scope Z_scope.
Local Open Scope list_scope.

(* ------------------------------------------------------------------ *)
(** ** Messages *)

(** Exceptions the script can meet.  [RerunException] is what [st.rerun()]
    raises to stop the current run of the script; [GraphRecursionError] is
    what the graph runtime raises when a run has used up its recursion
    limit without reaching [END]. *)
Inductive exn : Type :=
| IndexError
| AttributeError
| RerunException
| GraphRecursionError
| CollaboratorError (detail : string).

(** How a computation ends: with a value, or with a propagating
    exception. *)
Inductive result (A : Type) : Type :=
| Ret (a : A)
| Exc (e : exn).
Arguments Ret {A} a.
Arguments Exc {A} e.

Record ToolCall : Type := {
  tc_name : string;
  tc_args : string;
  tc_id : string
}.

(** The three message classes the graph handles. Only an [AIMessage] has
    the attribute [tool_calls]. *)
Inductive BaseMessage : Type :=
| HumanMessage (text : string)
| AIMessage (text : string) (calls : list ToolCall)
| ToolMessage (text : string) (tool_call_id : string).

(** [message.content] *)
Definition content (m : BaseMessage) : string :=
  match m with
  | HumanMessage c => c
  | AIMessage c _ => c
  | ToolMessage c _ => c
  end.

(** [message.tool_calls] *)
Definition tool_calls (m : BaseMessage) : result (list ToolCall) :=
  match m with
  | AIMessage _ tcs => Ret tcs
  | _ => Exc AttributeError
  end.

(** [xs[-1]]: the last item, [None] standing for Python's IndexError. *)
Fixpoint last_item {A : Type} (xs : list A) : option A :=
  match xs with
  | [] => None
  | [x] => Some x
  | _ :: rest => last_item rest
  end.

(* ------------------------------------------------------------------ *)
(** ** Trace and monad *)

(** Calls made to the Streamlit page. *)
Inductive UiCall : Type :=
| Title (s : string)
| ChatMessage (role : string)
| Markdown (body : string)
| Info (questions_left : Z)
| Spinner (s : string)
| Warning (s : string).

Inductive Event : Type :=
| ModelCall (input : list BaseMessage) (output : exn + BaseMessage)
| ToolNodeCall (input : list BaseMessage) (output : exn + list BaseMessage)
| Ui (call : UiCall).

(** State, trace and exceptions: a computation takes the state and returns
    how it ended, the state it left, and the calls it made, oldest first.
    An exception keeps the state reached when it was raised, as the
    mutations a Python script made before raising stay. *)
Definition M (S A : Type) : Type := S -> result A * S * list Event.

Definition ret {S A : Type} (a : A) : M S A :=
  fun s => (Ret a, s, []).

Definition bind {S A B : Type} (m : M S A) (f : A -> M S B) : M S B :=
  fun s =>
    match m s with
    | (Ret a, s1, t1) => let '(r, s2, t2) := f a s1 in (r, s2, t1 ++ t2)
    | (Exc e, s1, t1) => (Exc e, s1, t1)
    end.

Definition raise {S A : Type} (e : exn) : M S A :=
  fun s => (Exc e, s, []).

Definition emit {S : Type} (ev : Event) : M S unit :=
  fun s => (Ret tt, s, [ev]).

Definition get {S : Type} : M S S :=
  fun s => (Ret s, s, []).

Definition modify {S : Type} (f : S -> S) : M S unit :=
  fun s => (Ret tt, f s, []).

Definition lift_result {S A : Type} (r : result A) : M S A :=
  fun s => (r, s, []).

Declare Scope monad_scope.
Delimit Scope monad_scope with monad.
Notation "x <- m ;; k" := (bind m (fun x => k))
  (at level 61, m at next level, right associativity) : monad_scope.
Notation "m ;; k" := (bind m (fun _ => k))
  (at level 61, right associativity) : monad_scope.
Local Open Scope monad_scope.

(** Accessors of a finished computation. *)
Definition outcome {S A : Type} (x : result A * S * list Event) : result A :=
  fst (fst x).
Definition state_after {S A : Type} (x : result A * S * list Event) : S :=
  snd (fst x).
Definition calls_made {S A : Type} (x : result A * S * list Event) : list Event :=
  snd x.

(** Counting the collaborator calls of a trace. *)
Definition is_model_call (ev : Event) : bool :=
  match ev with ModelCall _ _ => true | _ => false end.
Definition is_tool_call (ev : Event) : bool :=
  match ev with ToolNodeCall _ _ => true | _ => false end.
Definition model_invocations (t : list Event) : nat :=
  List.length (filter is_model_call t).
Definition tool_invocations (t : list Event) : nat :=
  List.length (filter is_tool_call t).

(** The messages the calls of a trace produced, in the order of the calls:
    one per successful model call, and the whole batch of a successful
    tool-node call. *)
Definition produced (ev : Event) : list BaseMessage :=
  match ev with
  | ModelCall _ (inr m) => [m]
  | ToolNodeCall _ (inr ms) => ms
  | _ => []
  end.
Definition appended (t : list Event) : list BaseMessage :=
  flat_map produced t.

(* ------------------------------------------------------------------ *)
(** ** Collaborators *)

(** [llm_with_tools.invoke(messages)] and the prebuilt [ToolNode(tools)]
    applied to the graph state.  Both talk to the network: they read and
    change a world [W], and either return or raise. *)
Class Collaborators (W : Type) : Type := {
  llm_with_tools_invoke : list BaseMessage -> W -> (exn + BaseMessage) * W;
  tool_node_invoke : list BaseMessage -> W -> (exn + list BaseMessage) * W
}.

(* ------------------------------------------------------------------ *)
(** ** The graph (sections 4 to 7 of the script) *)

(** [AgentState]: one key, [messages]. *)
Record AgentState : Type := { messages : list BaseMessage }.

(** The reducer attached to [messages]. *)
Definition operator_add (old new : list BaseMessage) : list BaseMessage :=
  old ++ new.

Inductive Node : Type := agent | call_tool.
Inductive Target : Type := END | goto (n : Node).

(** What [should_continue] returns: the key [END] or the key ["call_tool"]. *)
Inductive RouteKey : Type := key_END | key_call_tool.

(** [should_continue(state)] *)
Definition should_continue (state : AgentState) : result RouteKey :=
  match last_item (messages state) with
  | None => Exc IndexError
  | Some last_message =>
      match tool_calls last_message with
      | Ret [] => Ret key_END
      | Ret (_ :: _) => Ret key_call_tool
      | Exc e => Exc e
      end
  end.

(** The mapping handed to [add_conditional_edges]. *)
Definition path_map (k : RouteKey) : Target :=
  match k with
  | key_call_tool => goto call_tool
  | key_END => END
  end.

(** [workflow.set_entry_point("agent")] *)
Definition entry_point : Node := agent.

Section Graph.
Context {W : Type} {C : Collaborators W}.

Definition call_llm (msgs : list BaseMessage) : M W BaseMessage :=
  fun w =>
    let '(out, w') := llm_with_tools_invoke msgs w in
    (match out with inr m => Ret m | inl e => Exc e end, w', [ModelCall msgs out]).

Definition call_tool_node (msgs : list BaseMessage) : M W (list BaseMessage) :=
  fun w =>
    let '(out, w') := tool_node_invoke msgs w in
    (match out with inr ms => Ret ms | inl e => Exc e end, w', [ToolNodeCall msgs out]).

(** [agent_node(state)]: the update it returns is the one-message list. *)
Definition agent_node (state : AgentState) : M W AgentState :=
  response <- call_llm (messages state) ;;
  ret {| messages := [response] |}.

(** [tool_node]: the update is the list of messages the tool node returns. *)
Definition tool_node (state : AgentState) : M W AgentState :=
  results <- call_tool_node (messages state) ;;
  ret {| messages := results |}.

(** [workflow.add_node] *)
Definition node_action (n : Node) : AgentState -> M W AgentState :=
  match n with
  | agent => agent_node
  | call_tool => tool_node
  end.

(** The edges: the conditional edge out of [agent], and
    [workflow.add_edge("call_tool", "agent")]. *)
Definition next_target (n : Node) (state : AgentState) : result Target :=
  match n with
  | agent =>
      match should_continue state with
      | Ret k => Ret (path_map k)
      | Exc e => Exc e
      end
  | call_tool => Ret (goto agent)
  end.

(** One step of the compiled graph: run the node, merge its update into the
    state with the reducer, and follow the edge. *)
Definition step (n : Node) (state : AgentState) : M W (Target * AgentState) :=
  update <- node_action n state ;;
  let state' := {| messages := operator_add (messages state) (messages update) |} in
  target <- lift_result (next_target n state') ;;
  ret (target, state').

(** The compiled graph started at node [n].  The script calls
    [app.invoke(inputs)] without a config, so the recursion limit of a run
    is the default of the graph runtime.  That default is a constant of
    the library, not of the script, and is a parameter here: [limit] is
    the number of node executions the runtime still allows.  When none is
    left and the run has not reached [END], the runtime raises
    [GraphRecursionError]. *)
Fixpoint run_from (limit : nat) (n : Node) (state : AgentState) : M W AgentState :=
  match limit with
  | O => raise GraphRecursionError
  | S limit' =>
      ts <- step n state ;;
      match fst ts with
      | END => ret (snd ts)
      | goto n' => run_from limit' n' (snd ts)
      end
  end.

(** [app.invoke(inputs)] under the runtime's recursion limit: the input is
    merged into the empty state with the reducer, and the graph starts at
    the entry point. *)
Definition app_invoke (limit : nat) (inputs : AgentState) : M W AgentState :=
  run_from limit entry_point {| messages := operator_add [] (messages inputs) |}.

End Graph.

(* ------------------------------------------------------------------ *)
(** ** The page (section 9 of the script) *)

Definition MAX_QUESTIONS : Z := 4.

(** An entry of the session's message list: a dict with the keys ["role"]
    and ["content"]. *)
Record ChatEntry : Type := { role : string; entry_content : string }.

(** [st.session_state]: the chat history and the question counter. *)
Module session_state.
Record t : Type := { messages : list ChatEntry; question_count : Z }.
End session_state.

(** "Initialize Session State": a key that is missing is set, [messages]
    to the empty list and [question_count] to 0, so this is the state a
    session has when the script first reads it. *)
Definition fresh_session : session_state.t :=
  {| session_state.messages := []; session_state.question_count := 0 |}.

(** [questions_left = MAX_QUESTIONS - st.session_state.question_count] *)
Definition questions_left (s : session_state.t) : Z :=
  MAX_QUESTIONS - session_state.question_count s.

(** [is_disabled = questions_left <= 0] *)
Definition is_disabled (s : session_state.t) : bool :=
  questions_left s <=? 0.

(** [st.session_state.question_count += 1] *)
Definition increment_question_count (s : session_state.t) : session_state.t :=
  {| session_state.messages := session_state.messages s;
     session_state.question_count := session_state.question_count s + 1 |}.

(** [st.session_state.messages.append(entry)] *)
Definition messages_append (entry : ChatEntry) (s : session_state.t) : session_state.t :=
  {| session_state.messages := session_state.messages s ++ [entry];
     session_state.question_count := session_state.question_count s |}.

(** Python's truth value of what [st.chat_input] returned: [None] and the
    empty string are false. *)
Definition truthy (prompt : option string) : bool :=
  match prompt with
  | None => false
  | Some text => negb (String.eqb text "")
  end.

(** What a run of the script works on: the session state, which Streamlit
    keeps between runs, and the collaborators' world. *)
Record Runtime (W : Type) : Type := { session : session_state.t; world : W }.
Arguments session {W} r.
Arguments world {W} r.

Section Page.
Context {W : Type} {C : Collaborators W}.

Definition in_world {A : Type} (m : M W A) : M (Runtime W) A :=
  fun r =>
    let '(res, w', t) := m (world r) in
    (res, {| session := session r; world := w' |}, t).

Definition update_session (f : session_state.t -> session_state.t) : M (Runtime W) unit :=
  modify (fun r => {| session := f (session r); world := world r |}).

Definition st (call : UiCall) : M (Runtime W) unit := emit (Ui call).

(** [st.rerun()] stops the run by raising. *)
Definition st_rerun : M (Runtime W) unit := raise RerunException.

(** "Display Past Messages" *)
Fixpoint display_messages (past : list ChatEntry) : M (Runtime W) unit :=
  match past with
  | [] => ret tt
  | message :: rest =>
      st (ChatMessage (role message)) ;;
      st (Markdown (entry_content message)) ;;
      display_messages rest
  end.

(** "Process New Prompt if Submitted": the body of [if prompt:] up to the
    second append.  Its value is [response_content], the text the page
    shows as the assistant's answer. *)
Definition process_new_prompt (limit : nat) (prompt : string) : M (Runtime W) string :=
  update_session increment_question_count ;;
  update_session (messages_append {| role := "user"; entry_content := prompt |}) ;;
  st (ChatMessage "user") ;;
  st (Markdown prompt) ;;
  st (ChatMessage "assistant") ;;
  let inputs := {| messages := [HumanMessage prompt] |} in
  st (Spinner "Thinking... Researching...") ;;
  final_state <- in_world (app_invoke limit inputs) ;;
  match last_item (messages final_state) with
  | None => raise IndexError
  | Some final_message =>
      let response_content := content final_message in
      st (Markdown response_content) ;;
      update_session
        (messages_append {| role := "assistant"; entry_content := response_content |}) ;;
      ret response_content
  end.

(** One run of the script, top to bottom.  [chat_input] is the chat input
    widget of this run: given the [disabled] flag the script passes, it
    returns the submitted text or [None]. *)
Definition script_run (limit : nat) (chat_input : bool -> option string) : M (Runtime W) unit :=
  st (Title "🧠 Smart Research Assistant") ;;
  r <- get ;;
  display_messages (session_state.messages (session r)) ;;
  (if negb (is_disabled (session r))
   then st (Info (questions_left (session r)))
   else ret tt) ;;
  let prompt := chat_input (is_disabled (session r)) in
  (if truthy prompt
   then
     match prompt with
     | Some text =>
         process_new_prompt limit text ;;
         r' <- get ;;
         if MAX_QUESTIONS <=? session_state.question_count (session r')
         then st_rerun
         else ret tt
     | None => ret tt
     end
   else ret tt) ;;
  if is_disabled (session r)
  then st (Warning "You have reached your question limit. Thank you!")
  else ret tt.

(** A session: the script runs once per interaction, each run starting from
    the session state and the world the run before left, whether it ended
    normally or not. *)
Definition run_session (limit : nat) (widgets : list (bool -> option string))
    (r : Runtime W) : Runtime W :=
  fold_left (fun r chat_input => state_after (script_run limit chat_input r)) widgets r.

End Page.

(** A chat input widget that does what its [disabled] flag says: disabled,
    it delivers nothing. *)
Definition honours_disabled (chat_input : bool -> option string) : Prop :=
  chat_input true = None.

(** The widget of a run in which the user typed [text] (or nothing). *)
Definition chat_input_widget (typed : option string) : bool -> option string :=
  fun disabled => if disabled then None else typed.

(** A widget that delivers [text] whatever its flag. *)
Definition unlocked_widget (text : string) : bool -> option string :=
  fun _ => Some text.

(* ------------------------------------------------------------------ *)
(** ** Tool execution as the specification describes it *)








(* ------------------------------------------------------------------ *)
(** ** Stub collaborators *)

(** A scripted model: the world is the list of replies still to give; each
    call gives the next one, and raises when none is left.  Its tool node
    answers every requested call with the same text. *)
Definition answer_calls (reply : string) (msgs : list BaseMessage) : list BaseMessage :=
  match last_item msgs with
  | Some (AIMessage _ calls) => map (fun call => ToolMessage reply (tc_id call)) calls
  | _ => []
  end.

Definition scripted (reply : string) : Collaborators (list BaseMessage) :=
  {| llm_with_tools_invoke := fun _ script =>
       match script with
       | [] => (inl (CollaboratorError "model unavailable"), [])
       | m :: rest => (inr m, rest)
       end;
     tool_node_invoke := fun msgs script => (inr (answer_calls reply msgs), script) |}.

Definition search_call (query : string) : ToolCall :=
  {| tc_name := "tavily_search"; tc_args := query; tc_id := "call_1" |}.

(** A model that asks for the search tool on every call. *)
Definition insatiable : Collaborators unit :=
  {| llm_with_tools_invoke := fun _ w => (inr (AIMessage "" [search_call "more"]), w);
     tool_node_invoke := fun msgs w => (inr (answer_calls "nothing new" msgs), w) |}.

(** A model that asks for the search tool as many times as its world
    says, one fewer each time, and then answers. *)
Definition countdown : Collaborators nat :=
  {| llm_with_tools_invoke := fun _ w =>
       match w with
       | O => (inr (AIMessage "done" []), O)
       | S w' => (inr (AIMessage "" [search_call "more"]), w')
       end;
     tool_node_invoke := fun msgs w => (inr (answer_calls "nothing new" msgs), w) |}.



(* ------------------------------------------------------------------ *)
(** ** When the model stops asking for tools *)

Section Rounds.
Context {W : Type} {C : Collaborators W}.

(** [settles k state w]: called round after round from [state] in the
    world [w], the model asks for tools [k] times, each request being
    served by the tool node, and then returns a message whose [tool_calls]
    is empty. *)
Inductive settles : nat -> AgentState -> W -> Prop :=
| settles_now state w c w1 :
    llm_with_tools_invoke (messages state) w = (inr (AIMessage c []), w1) ->
    settles O state w
| settles_later k state w c call calls w1 results w2 :
    llm_with_tools_invoke (messages state) w
      = (inr (AIMessage c (call :: calls)), w1) ->
    tool_node_invoke (messages state ++ [AIMessage c (call :: calls)]) w1
      = (inr results, w2) ->
    settles k {| messages := (messages state ++ [AIMessage c (call :: calls)]) ++ results |} w2 ->
    settles (S k) state w.

End Rounds.

(** The session transcript read as the specification reads it: a user entry
    as a human message, any other entry as a plain assistant message. *)
Definition as_transcript (history : list ChatEntry) : list BaseMessage :=
  map (fun entry =>
         if String.eqb (role entry) "user"
         then HumanMessage (entry_content entry)
         else AIMessage (entry_content entry) [])
      history.

(** The input of the first model call of a trace. *)
Fixpoint first_model_input (t : list Event) : option (list BaseMessage) :=
  match t with
  | [] => None
  | ModelCall input _ :: _ => Some input
  | _ :: rest => first_model_input rest
  end.

(** Whether the page was asked to show [body]. *)
Definition shown (body : string) (t : list Event) : Prop :=
  In (Ui (Markdown body)) t.

(* ------------------------------------------------------------------ *)
(** ** The calls of a run of the script, by kind *)

(** The calls a page-only stretch of the script makes: showing the stored
    entries, and the calls before and after the prompt is looked at. *)
Definition display_calls (past : list ChatEntry) : list Event :=
  flat_map (fun message =>
              [Ui (ChatMessage (role message)); Ui (Markdown (entry_content message))])
           past.

Definition head_calls (s : session_state.t) : list Event :=
  Ui (Title "🧠 Smart Research Assistant")
    :: display_calls (session_state.messages s)
    ++ (if negb (is_disabled s) then [Ui (Info (questions_left s))] else []).

Definition tail_calls (s : session_state.t) : list Event :=
  if is_disabled s
  then [Ui (Warning "You have reached your question limit. Thank you!")]
  else [].

(** Calls to the page, as opposed to calls to a collaborator. *)
Definition is_page_call (ev : Event) : bool :=
  match ev with Ui _ => true | _ => false end.

(** The page calls the block makes before it runs the graph. *)
Definition opening_calls (prompt : string) : list Event :=
  [Ui (ChatMessage "user"); Ui (Markdown prompt); Ui (ChatMessage "assistant");
   Ui (Spinner "Thinking... Researching...")].

(** The session once the block has counted the question and stored it. *)
Definition question_recorded (prompt : string) (s : session_state.t) : session_state.t :=
  messages_append {| role := "user"; entry_content := prompt |}
    (increment_question_count s).

(* ------------------------------------------------------------------ *)
(** ** Concrete sessions *)

(** A session that already holds one question and its answer, with a
    model about to give one more answer. *)
Definition returning_visitor : Runtime (list BaseMessage) :=
  {| session :=
       {| session_state.messages :=
            [{| role := "user"; entry_content := "Who wrote Hamlet?" |};
             {| role := "assistant"; entry_content := "Shakespeare" |}];
          session_state.question_count := 1 |};
     world := [AIMessage "In 1564" []] |}.

(** A first question that takes one tool round. *)
Definition first_visit : Runtime (list BaseMessage) :=
  {| session := fresh_session;
     world := [AIMessage "" [search_call "Apple stock price"];
               AIMessage "Apple trades at $150" []] |}.

(** A first question asked while the model cannot be reached. *)
Definition model_down : Runtime (list BaseMessage) :=
  {| session := fresh_session; world := [] |}.

(** A session whose four questions have been asked and answered; the
    model has one more answer ready. *)
Definition budget_spent : Runtime (list BaseMessage) :=
  run_session (C := scripted "") 1
    [chat_input_widget (Some "q1"); chat_input_widget (Some "q2");
     chat_input_widget (Some "q3"); chat_input_widget (Some "q4")]
    {| session := fresh_session;
       world := [AIMessage "a1" []; AIMessage "a2" []; AIMessage "a3" [];
                 AIMessage "a4" []; AIMessage "a5" []] |}.

(* ------------------------------------------------------------------ *)
(** ** Runs of the graph as a relation, and shapes of traces and histories *)

Section Runs.
Context {W : Type} {C : Collaborators W}.

(** [runs n state w r w' t]: started at node [n] on [state] in the world
    [w], the compiled graph makes the calls [t], leaves the world [w'] and
    ends as [r].  One rule per way a node and the edge after it can go;
    [runs_limit_reached] ends a run where the runtime's recursion limit
    is used up. *)
Inductive runs : Node -> AgentState -> W -> result AgentState -> W -> list Event -> Prop :=
| runs_limit_reached n state w :
    runs n state w (Exc GraphRecursionError) w []
| runs_model_raises state w e w1 :
    llm_with_tools_invoke (messages state) w = (inl e, w1) ->
    runs agent state w (Exc e) w1 [ModelCall (messages state) (inl e)]
| runs_reply_without_tool_calls_attribute state w m e w1 :
    llm_with_tools_invoke (messages state) w = (inr m, w1) ->
    tool_calls m = Exc e ->
    runs agent state w (Exc e) w1 [ModelCall (messages state) (inr m)]
| runs_answer state w c w1 :
    llm_with_tools_invoke (messages state) w = (inr (AIMessage c []), w1) ->
    runs agent state w (Ret {| messages := messages state ++ [AIMessage c []] |}) w1
      [ModelCall (messages state) (inr (AIMessage c []))]
| runs_request state w c call calls w1 r w2 t :
    llm_with_tools_invoke (messages state) w = (inr (AIMessage c (call :: calls)), w1) ->
    runs call_tool {| messages := messages state ++ [AIMessage c (call :: calls)] |} w1 r w2 t ->
    runs agent state w r w2
      (ModelCall (messages state) (inr (AIMessage c (call :: calls))) :: t)
| runs_tools_raise state w e w1 :
    tool_node_invoke (messages state) w = (inl e, w1) ->
    runs call_tool state w (Exc e) w1 [ToolNodeCall (messages state) (inl e)]
| runs_tools_return state w results w1 r w2 t :
    tool_node_invoke (messages state) w = (inr results, w1) ->
    runs agent {| messages := messages state ++ results |} w1 r w2 t ->
    runs call_tool state w r w2 (ToolNodeCall (messages state) (inr results) :: t).

End Runs.

(** [fed_whole_state current t]: every collaborator call of [t] received
    exactly the messages gathered so far, starting from [current] and
    growing by what each earlier call produced. *)
Fixpoint fed_whole_state (current : list BaseMessage) (t : list Event) : Prop :=
  match t with
  | [] => True
  | ev :: rest =>
      match ev with
      | ModelCall input _ => input = current
      | ToolNodeCall input _ => input = current
      | Ui _ => True
      end
      /\ fed_whole_state (current ++ produced ev) rest
  end.

(** [alternating n t]: the calls of [t] are collaborator calls that take
    turns, the first one to the collaborator of node [n]. *)
Fixpoint alternating (n : Node) (t : list Event) : bool :=
  match t, n with
  | [], _ => true
  | ModelCall _ _ :: rest, agent => alternating call_tool rest
  | ToolNodeCall _ _ :: rest, call_tool => alternating agent rest
  | _, _ => false
  end.

(** Whether a transcript ends with a model message that asks for a tool. *)
Definition ends_with_request (msgs : list BaseMessage) : Prop :=
  exists c call calls, last_item msgs = Some (AIMessage c (call :: calls)).

(** The number of stored entries with the role [who]. *)
Definition count_role (who : string) (history : list ChatEntry) : nat :=
  List.length (filter (fun entry => String.eqb (role entry) who) history).

(** [question_answer_shape answerable history]: every entry is a user
    entry or an assistant entry, and an assistant entry comes only right
    after a user entry ([answerable] says whether the entry before the
    list was a user entry). *)
Fixpoint question_answer_shape (answerable : bool) (history : list ChatEntry) : bool :=
  match history with
  | [] => true
  | entry :: rest =>
      if String.eqb (role entry) "user" then question_answer_shape true rest
      else if String.eqb (role entry) "assistant"
           then answerable && question_answer_shape false rest
           else false
  end.

(* ------------------------------------------------------------------ *)
(** ** What a run of the script appends to the stored history *)

Section Appends.
Context {W : Type} {C : Collaborators W}.



End Appends.


(* ------------------------------------------------------------------ *)
(** * Facts *)

(** ** Lists and traces *)

Lemma last_item_app {A : Type} (xs : list A) (x : A) :
  last_item (xs ++ [x]) = Some x.
Proof.
  induction xs as [|y ys IH]; [reflexivity|].
  simpl. rewrite IH. destruct (ys ++ [x]) eqn:E; [|reflexivity].
  destruct ys; discriminate E.
Qed.

Lemma model_invocations_app (t1 t2 : list Event) :
  model_invocations (t1 ++ t2) = (model_invocations t1 + model_invocations t2)%nat.
Proof. unfold model_invocations. now rewrite filter_app, length_app. Qed.

Lemma tool_invocations_app (t1 t2 : list Event) :
  tool_invocations (t1 ++ t2) = (tool_invocations t1 + tool_invocations t2)%nat.
Proof. unfold tool_invocations. now rewrite filter_app, length_app. Qed.

Lemma appended_app (t1 t2 : list Event) :
  appended (t1 ++ t2) = appended t1 ++ appended t2.
Proof. unfold appended. apply flat_map_app. Qed.

(** ** The routing decision *)

Lemma should_continue_last (before : list BaseMessage) (m : BaseMessage) :
  should_continue {| messages := before ++ [m] |}
  = match tool_calls m with
    | Ret [] => Ret key_END
    | Ret (_ :: _) => Ret key_call_tool
    | Exc e => Exc e
    end.
Proof. unfold should_continue. simpl. now rewrite last_item_app. Qed.

Section GraphFacts.
Context {W : Type} {C : Collaborators W}.

(** ** One step of the graph *)

Lemma step_agent_answer (state : AgentState) (w w1 : W) (c : string) :
  llm_with_tools_invoke (messages state) w = (inr (AIMessage c []), w1) ->
  step agent state w
  = (Ret (END, {| messages := messages state ++ [AIMessage c []] |}), w1,
     [ModelCall (messages state) (inr (AIMessage c []))]).
Proof.
  intros H. unfold step, bind, node_action, agent_node, bind, call_llm.
  rewrite H. cbn -[should_continue]. unfold lift_result, next_target, operator_add.
  cbn -[should_continue]. rewrite should_continue_last. reflexivity.
Qed.

Lemma step_agent_request (state : AgentState) (w w1 : W) (c : string)
    (call : ToolCall) (calls : list ToolCall) :
  llm_with_tools_invoke (messages state) w = (inr (AIMessage c (call :: calls)), w1) ->
  step agent state w
  = (Ret (goto call_tool, {| messages := messages state ++ [AIMessage c (call :: calls)] |}),
     w1, [ModelCall (messages state) (inr (AIMessage c (call :: calls)))]).
Proof.
  intros H. unfold step, bind, node_action, agent_node, bind, call_llm.
  rewrite H. cbn -[should_continue]. unfold lift_result, next_target, operator_add.
  cbn -[should_continue]. rewrite should_continue_last. reflexivity.
Qed.

Lemma step_agent_raise (state : AgentState) (w w1 : W) (e : exn) :
  llm_with_tools_invoke (messages state) w = (inl e, w1) ->
  step agent state w = (Exc e, w1, [ModelCall (messages state) (inl e)]).
Proof.
  intros H. unfold step, bind, node_action, agent_node, bind, call_llm.
  rewrite H. reflexivity.
Qed.

Lemma step_call_tool_results (state : AgentState) (w w1 : W) (results : list BaseMessage) :
  tool_node_invoke (messages state) w = (inr results, w1) ->
  step call_tool state w
  = (Ret (goto agent, {| messages := messages state ++ results |}), w1,
     [ToolNodeCall (messages state) (inr results)]).
Proof.
  intros H. unfold step, bind, node_action, tool_node, bind, call_tool_node.
  rewrite H. reflexivity.
Qed.

Lemma step_call_tool_raise (state : AgentState) (w w1 : W) (e : exn) :
  tool_node_invoke (messages state) w = (inl e, w1) ->
  step call_tool state w = (Exc e, w1, [ToolNodeCall (messages state) (inl e)]).
Proof.
  intros H. unfold step, bind, node_action, tool_node, bind, call_tool_node.
  rewrite H. reflexivity.
Qed.

(** ** Running the graph *)

Lemma run_from_end (limit : nat) (n : Node) (state state' : AgentState)
    (w w1 : W) (t : list Event) :
  step n state w = (Ret (END, state'), w1, t) ->
  run_from (S limit) n state w = (Ret state', w1, t).
Proof.
  intros H. simpl. unfold bind. rewrite H. simpl. now rewrite app_nil_r.
Qed.

Lemma run_from_goto (limit : nat) (n n' : Node) (state state' : AgentState)
    (w w1 : W) (t : list Event) :
  step n state w = (Ret (goto n', state'), w1, t) ->
  run_from (S limit) n state w
  = (outcome (run_from limit n' state' w1),
     state_after (run_from limit n' state' w1),
     t ++ calls_made (run_from limit n' state' w1)).
Proof.
  intros H. simpl. unfold bind. rewrite H. simpl.
  now destruct (run_from limit n' state' w1) as [[r w2] t2].
Qed.

Lemma run_from_raise (limit : nat) (n : Node) (state : AgentState)
    (w w1 : W) (t : list Event) (e : exn) :
  step n state w = (Exc e, w1, t) ->
  run_from (S limit) n state w = (Exc e, w1, t).
Proof. intros H. simpl. unfold bind. now rewrite H. Qed.

End GraphFacts.

(** ** The routing decision looks at the last message only *)

(** C5: the routing decision after a model response reads only the most
    recently appended message.  Two transcripts that end with the same
    message are routed alike; a last message with empty [tool_calls] is
    routed to [END], and the run then stops with that message as the last
    one of the state it returns; a last message with a tool call is routed
    to the [call_tool] node, which the run executes next. *)
Theorem should_continue_reads_last_message :
  (forall (before before' : list BaseMessage) (m : BaseMessage),
      should_continue {| messages := before ++ [m] |}
      = should_continue {| messages := before' ++ [m] |})
  /\ (forall (before : list BaseMessage) (c : string),
        should_continue {| messages := before ++ [AIMessage c []] |} = Ret key_END
        /\ next_target agent {| messages := before ++ [AIMessage c []] |} = Ret END)
  /\ (forall (before : list BaseMessage) (c : string) (call : ToolCall) (calls : list ToolCall),
        should_continue {| messages := before ++ [AIMessage c (call :: calls)] |}
        = Ret key_call_tool
        /\ next_target agent {| messages := before ++ [AIMessage c (call :: calls)] |}
           = Ret (goto call_tool))
  /\ (forall (W : Type) (C : Collaborators W) (limit : nat) (state : AgentState)
             (w w1 : W) (c : string),
        llm_with_tools_invoke (messages state) w = (inr (AIMessage c []), w1) ->
        run_from (S limit) agent state w
        = (Ret {| messages := messages state ++ [AIMessage c []] |}, w1,
           [ModelCall (messages state) (inr (AIMessage c []))]))
  /\ (forall (W : Type) (C : Collaborators W) (limit : nat) (state : AgentState)
             (w w1 : W) (c : string) (call : ToolCall) (calls : list ToolCall),
        llm_with_tools_invoke (messages state) w
        = (inr (AIMessage c (call :: calls)), w1) ->
        let state' := {| messages := messages state ++ [AIMessage c (call :: calls)] |} in
        run_from (S limit) agent state w
        = (outcome (run_from limit call_tool state' w1),
           state_after (run_from limit call_tool state' w1),
           [ModelCall (messages state) (inr (AIMessage c (call :: calls)))]
             ++ calls_made (run_from limit call_tool state' w1))).
Proof.
  repeat split.
  - intros before before' m. now rewrite !should_continue_last.
  - now rewrite should_continue_last.
  - unfold next_target. now rewrite should_continue_last.
  - now rewrite should_continue_last.
  - unfold next_target. now rewrite should_continue_last.
  - intros W C limit state w w1 c H.
    apply run_from_end. now apply step_agent_answer.
  - intros W C limit state w w1 c call calls H state'.
    apply run_from_goto. now apply step_agent_request.
Qed.

Lemma should_continue_reads_last_message_witness :
  run_from (C := scripted "$150") 1 agent
    {| messages := [HumanMessage "2+2?"] |} [AIMessage "4" []]
  = (Ret {| messages := [HumanMessage "2+2?"; AIMessage "4" []] |}, [],
     [ModelCall [HumanMessage "2+2?"] (inr (AIMessage "4" []))])
  /\ outcome (run_from (C := insatiable) 2 agent {| messages := [HumanMessage "q"] |} tt)
     = Exc GraphRecursionError.
Proof.
  split.
  - apply (proj1 (proj2 (proj2 (proj2 should_continue_reads_last_message)))
             (list BaseMessage) (scripted "$150") O
             {| messages := [HumanMessage "2+2?"] |} [AIMessage "4" []] [] "4").
    reflexivity.
  - rewrite (proj2 (proj2 (proj2 (proj2 should_continue_reads_last_message)))
               unit insatiable 1%nat {| messages := [HumanMessage "q"] |} tt tt ""
               (search_call "more") []); reflexivity.
Defined.

(** ** Termination of the loop *)

Section Termination.
Context {W : Type} {C : Collaborators W}.

Lemma settles_run_from (k : nat) (state : AgentState) (w : W) :
  settles k state w ->
  exists (final : AgentState) (w' : W) (t : list Event),
    (forall limit, (2 * k + 1 <= limit)%nat ->
                  run_from limit agent state w = (Ret final, w', t))
    /\ (exists c, last_item (messages final) = Some (AIMessage c []))
    /\ model_invocations t = S k
    /\ tool_invocations t = k.
Proof.
  induction 1 as [state w c w1 Hllm
                 |k state w c call calls w1 results w2 Hllm Htool _ IH].
  - exists {| messages := messages state ++ [AIMessage c []] |}, w1,
      [ModelCall (messages state) (inr (AIMessage c []))].
    repeat split.
    + intros [|limit] Hlimit; [lia|].
      apply run_from_end. now apply step_agent_answer.
    + exists c. apply last_item_app.
  - destruct IH as (final & w' & t & Hrun & Hlast & Hm & Ht).
    exists final, w',
      ([ModelCall (messages state) (inr (AIMessage c (call :: calls)))]
         ++ [ToolNodeCall (messages state ++ [AIMessage c (call :: calls)]) (inr results)]
         ++ t).
    repeat split.
    + intros [|[|limit]] Hlimit; try lia.
      rewrite (run_from_goto _ _ _ _ _ _ _ _ (step_agent_request _ _ _ _ _ _ Hllm)).
      rewrite (run_from_goto _ _ _ _ _ _ _ _
                 (step_call_tool_results
                    {| messages := messages state ++ [AIMessage c (call :: calls)] |}
                    _ _ _ Htool)).
      cbn [messages]. rewrite (Hrun limit) by lia. reflexivity.
    + exact Hlast.
    + rewrite !model_invocations_app, Hm. reflexivity.
    + rewrite !tool_invocations_app, Ht. reflexivity.
Qed.

End Termination.

Lemma insatiable_keeps_running (limit : nat) :
  forall state : AgentState,
    (outcome (run_from (C := insatiable) limit agent state tt) = Exc GraphRecursionError
     /\ model_invocations (calls_made (run_from (C := insatiable) limit agent state tt))
        = Nat.div2 (S limit))
    /\ (outcome (run_from (C := insatiable) limit call_tool state tt)
        = Exc GraphRecursionError
        /\ model_invocations (calls_made (run_from (C := insatiable) limit call_tool state tt))
           = Nat.div2 limit).
Proof.
  induction limit as [|limit IH]; intros state.
  - repeat split.
  - destruct (IH {| messages := messages state ++ [AIMessage "" [search_call "more"]] |})
      as [_ [Hout Hcount]].
    destruct (IH {| messages := messages state ++ answer_calls "nothing new" (messages state) |})
      as [[Hout' Hcount'] _].
    split.
    + rewrite (run_from_goto (C := insatiable) limit agent call_tool state _ tt tt _
                 (step_agent_request (C := insatiable) state tt tt ""
                    (search_call "more") [] eq_refl)).
      unfold outcome, calls_made in *. cbn [fst snd].
      split; [exact Hout|].
      rewrite model_invocations_app, Hcount. reflexivity.
    + rewrite (run_from_goto (C := insatiable) limit call_tool agent state _ tt tt _
                 (step_call_tool_results (C := insatiable) state tt tt _ eq_refl)).
      unfold outcome, calls_made in *. cbn [fst snd].
      split; [exact Hout'|].
      rewrite model_invocations_app, Hcount'. reflexivity.
Qed.

(** A model that settles after [k] rounds needs [2 * k + 1] node
    executions; with fewer allowed, the runtime ends the run. *)
Lemma settles_cut_short {W : Type} {C : Collaborators W}
    (k : nat) (state : AgentState) (w : W) :
  settles k state w ->
  forall limit, (limit < 2 * k + 1)%nat ->
                outcome (run_from limit agent state w) = Exc GraphRecursionError.
Proof.
  induction 1 as [state w c w1 Hllm
                 |k state w c call calls w1 results w2 Hllm Htool _ IH];
    intros limit Hlimit.
  - destruct limit; [reflexivity|lia].
  - destruct limit as [|[|limit]]; [reflexivity| |].
    + now rewrite (run_from_goto _ _ _ _ _ _ _ _ (step_agent_request _ _ _ _ _ _ Hllm)).
    + rewrite (run_from_goto _ _ _ _ _ _ _ _ (step_agent_request _ _ _ _ _ _ Hllm)).
      rewrite (run_from_goto _ _ _ _ _ _ _ _
                 (step_call_tool_results
                    {| messages := messages state ++ [AIMessage c (call :: calls)] |}
                    _ _ _ Htool)).
      cbn [outcome fst messages]. apply IH. lia.
Qed.

Lemma countdown_settles (k : nat) :
  forall state : AgentState, settles (C := countdown) k state k.
Proof.
  induction k as [|k IH]; intros state.
  - eapply settles_now. reflexivity.
  - eapply settles_later; [reflexivity|reflexivity|apply IH].
Qed.

(** C6, as stated, fails: a model that stops asking for tools after
    finitely many rounds does not always make the run return.  With a
    recursion limit of 25, a model that answers after 13 tool rounds is
    cut by [GraphRecursionError]; and whatever the runtime's limit is, some
    model that settles is cut. *)
Lemma settling_model_cut_by_recursion_limit :
  settles (C := countdown) 13 {| messages := [HumanMessage "q"] |} 13%nat
  /\ outcome (app_invoke (C := countdown) 25 {| messages := [HumanMessage "q"] |} 13%nat)
     = Exc GraphRecursionError
  /\ ~ (exists limit : nat,
           forall (W : Type) (C : Collaborators W) (k : nat) (state : AgentState) (w : W),
             settles k state w ->
             exists (final : AgentState) (w' : W) (t : list Event),
               run_from limit agent state w = (Ret final, w', t)).
Proof.
  split; [apply countdown_settles|]. split; [reflexivity|].
  intros [limit Hreturns].
  destruct (Hreturns nat countdown limit {| messages := [HumanMessage "q"] |} limit
              (countdown_settles limit _)) as (final & w' & t & Hrun).
  pose proof (settles_cut_short limit _ _ (countdown_settles limit
                                             {| messages := [HumanMessage "q"] |})
                limit ltac:(lia)) as Hcut.
  rewrite Hrun in Hcut. discriminate Hcut.
Qed.

(** C6, amended: when the model asks for tools [k] times and then returns
    a message with empty [tool_calls], the graph run returns as soon as the
    runtime's recursion limit allows the [2 * k + 1] node executions this
    takes (the final state ends with that message, after [k + 1] model
    calls and [k] tool-node calls), and is ended by [GraphRecursionError]
    when the limit allows fewer; the edge out of [call_tool] leads to
    [agent] whatever the state; and the script sets no round limit of its
    own: with a model that always asks for a tool the run goes on until the
    runtime's limit ends it, its model calls growing with that limit. *)
Theorem agent_loop_returns_within_recursion_limit :
  (forall (W : Type) (C : Collaborators W) (k : nat) (state : AgentState) (w : W),
      settles k state w ->
      exists (final : AgentState) (w' : W) (t : list Event),
        (forall limit, (2 * k + 1 <= limit)%nat ->
                      run_from limit agent state w = (Ret final, w', t))
        /\ (exists c, last_item (messages final) = Some (AIMessage c []))
        /\ model_invocations t = S k
        /\ tool_invocations t = k)
  /\ (forall (W : Type) (C : Collaborators W) (k : nat) (state : AgentState) (w : W)
             (limit : nat),
        settles k state w ->
        (limit < 2 * k + 1)%nat ->
        outcome (run_from limit agent state w) = Exc GraphRecursionError)
  /\ (forall state : AgentState, next_target call_tool state = Ret (goto agent))
  /\ (forall (limit : nat) (inputs : AgentState),
        outcome (app_invoke (C := insatiable) limit inputs tt) = Exc GraphRecursionError
        /\ model_invocations (calls_made (app_invoke (C := insatiable) limit inputs tt))
           = Nat.div2 (S limit)).
Proof.
  split; [|split; [|split]].
  - intros W C k state w H. now apply settles_run_from.
  - intros W C k state w limit H Hlimit. now apply (settles_cut_short k state w H).
  - reflexivity.
  - intros limit inputs. unfold app_invoke, entry_point.
    apply (insatiable_keeps_running limit).
Qed.

Lemma agent_loop_returns_within_recursion_limit_witness :
  (exists (final : AgentState) (w' : list BaseMessage) (t : list Event),
      run_from (C := scripted "$150") 3 agent {| messages := [HumanMessage "Apple?"] |}
        [AIMessage "" [search_call "Apple stock price"]; AIMessage "It is $150" []]
      = (Ret final, w', t)
      /\ (exists c, last_item (messages final) = Some (AIMessage c []))
      /\ model_invocations t = 2%nat
      /\ tool_invocations t = 1%nat)
  /\ outcome (run_from (C := scripted "$150") 2 agent
                {| messages := [HumanMessage "Apple?"] |}
                [AIMessage "" [search_call "Apple stock price"]; AIMessage "It is $150" []])
     = Exc GraphRecursionError.
Proof.
  assert (Hsettles : settles (C := scripted "$150") 1
                       {| messages := [HumanMessage "Apple?"] |}
                       [AIMessage "" [search_call "Apple stock price"];
                        AIMessage "It is $150" []]).
  { eapply settles_later; [reflexivity|reflexivity|].
    eapply settles_now. reflexivity. }
  split.
  - destruct (proj1 agent_loop_returns_within_recursion_limit
                (list BaseMessage) (scripted "$150") 1%nat
                {| messages := [HumanMessage "Apple?"] |}
                [AIMessage "" [search_call "Apple stock price"]; AIMessage "It is $150" []]
                Hsettles)
      as (final & w' & t & Hrun & Hrest).
    exists final, w', t. split; [apply Hrun; simpl; lia|exact Hrest].
  - apply (proj1 (proj2 agent_loop_returns_within_recursion_limit)
             (list BaseMessage) (scripted "$150") 1%nat
             {| messages := [HumanMessage "Apple?"] |}
             [AIMessage "" [search_call "Apple stock price"]; AIMessage "It is $150" []]
             2%nat Hsettles).
    simpl. lia.
Defined.

(** ** What a run that returns has done *)

Section ReturnedRuns.
Context {W : Type} {C : Collaborators W}.

Lemma step_agent_returned (state : AgentState) (w w1 : W) (m : BaseMessage) :
  llm_with_tools_invoke (messages state) w = (inr m, w1) ->
  step agent state w
  = (match tool_calls m with
     | Ret [] => Ret (END, {| messages := messages state ++ [m] |})
     | Ret (_ :: _) => Ret (goto call_tool, {| messages := messages state ++ [m] |})
     | Exc e => Exc e
     end, w1, [ModelCall (messages state) (inr m)]).
Proof.
  intros H. unfold step, bind, node_action, agent_node, bind, call_llm.
  rewrite H. cbn -[should_continue]. unfold lift_result, next_target, operator_add.
  cbn -[should_continue]. rewrite should_continue_last.
  destruct (tool_calls m) as [[|call calls]|e]; reflexivity.
Qed.

(** A run that returns ends on a model message without tool calls, and the
    state it returns is the state it started from followed by the messages
    its calls produced, in the order of the calls. *)
Lemma run_from_returned (limit : nat) :
  forall (n : Node) (state final : AgentState) (w w' : W) (t : list Event),
    run_from limit n state w = (Ret final, w', t) ->
    (exists c, last_item (messages final) = Some (AIMessage c []))
    /\ messages final = messages state ++ appended t.
Proof.
  induction limit as [|limit IH]; intros n state final w w' t Hrun;
    [discriminate Hrun|].
  destruct n.
  - destruct (llm_with_tools_invoke (messages state) w) as [[e|m] w1] eqn:Hllm.
    + rewrite (run_from_raise _ _ _ _ _ _ _ (step_agent_raise _ _ _ _ Hllm)) in Hrun.
      discriminate Hrun.
    + pose proof (step_agent_returned _ _ _ _ Hllm) as Hstep.
      destruct m as [c|c [|call calls]|c i]; cbn [tool_calls] in Hstep.
      * rewrite (run_from_raise _ _ _ _ _ _ _ Hstep) in Hrun. discriminate Hrun.
      * rewrite (run_from_end _ _ _ _ _ _ _ Hstep) in Hrun.
        injection Hrun as <- <- <-. split.
        -- exists c. apply last_item_app.
        -- cbn. reflexivity.
      * rewrite (run_from_goto _ _ _ _ _ _ _ _ Hstep) in Hrun.
        destruct (run_from limit call_tool
                    {| messages := messages state ++ [AIMessage c (call :: calls)] |} w1)
          as [[r w2] t2] eqn:Hrest.
        cbn in Hrun. injection Hrun as -> <- <-.
        destruct (IH _ _ _ _ _ _ Hrest) as [Hlast Hmsgs]. split; [exact Hlast|].
        rewrite Hmsgs. cbn. now rewrite <- app_assoc.
      * rewrite (run_from_raise _ _ _ _ _ _ _ Hstep) in Hrun. discriminate Hrun.
  - destruct (tool_node_invoke (messages state) w) as [[e|results] w1] eqn:Htool.
    + rewrite (run_from_raise _ _ _ _ _ _ _ (step_call_tool_raise _ _ _ _ Htool)) in Hrun.
      discriminate Hrun.
    + rewrite (run_from_goto _ _ _ _ _ _ _ _ (step_call_tool_results _ _ _ _ Htool)) in Hrun.
      destruct (run_from limit agent {| messages := messages state ++ results |} w1)
        as [[r w2] t2] eqn:Hrest.
      cbn in Hrun. injection Hrun as -> <- <-.
      destruct (IH _ _ _ _ _ _ Hrest) as [Hlast Hmsgs]. split; [exact Hlast|].
      rewrite Hmsgs. cbn. now rewrite <- app_assoc.
Qed.

(** Whatever the outcome, the first call of a run from [agent] is a model
    call on the state the run started from. *)
Lemma run_from_agent_first_call (limit : nat) (state : AgentState) (w : W) :
  first_model_input (calls_made (run_from (S limit) agent state w))
  = Some (messages state).
Proof.
  destruct (llm_with_tools_invoke (messages state) w) as [[e|m] w1] eqn:Hllm.
  - now rewrite (run_from_raise _ _ _ _ _ _ _ (step_agent_raise _ _ _ _ Hllm)).
  - pose proof (step_agent_returned _ _ _ _ Hllm) as Hstep.
    destruct (tool_calls m) as [[|call calls]|e] eqn:Hcalls.
    + now rewrite (run_from_end _ _ _ _ _ _ _ Hstep).
    + now rewrite (run_from_goto _ _ _ _ _ _ _ _ Hstep).
    + now rewrite (run_from_raise _ _ _ _ _ _ _ Hstep).
Qed.

End ReturnedRuns.

(** ** The prompt block *)

Section PageFacts.
Context {W : Type} {C : Collaborators W}.

Lemma process_new_prompt_unfold (limit : nat) (prompt : string) (r : Runtime W) :
  process_new_prompt limit prompt r
  = match app_invoke limit {| messages := [HumanMessage prompt] |} (world r) with
    | (Ret final, w', t) =>
        match last_item (messages final) with
        | None =>
            (Exc IndexError,
             {| session := question_recorded prompt (session r); world := w' |},
             opening_calls prompt ++ t)
        | Some final_message =>
            (Ret (content final_message),
             {| session :=
                  messages_append
                    {| role := "assistant"; entry_content := content final_message |}
                    (question_recorded prompt (session r));
                world := w' |},
             opening_calls prompt ++ t ++ [Ui (Markdown (content final_message))])
        end
    | (Exc e, w', t) =>
        (Exc e, {| session := question_recorded prompt (session r); world := w' |},
         opening_calls prompt ++ t)
    end.
Proof.
  unfold process_new_prompt, bind, update_session, modify, st, emit, in_world.
  cbn [world session].
  destruct (app_invoke limit {| messages := [HumanMessage prompt] |} (world r))
    as [[[final|e] w'] t]; cbn.
  - destruct (last_item (messages final)) as [m|]; cbn.
    + reflexivity.
    + now rewrite app_nil_r.
  - reflexivity.
Qed.

End PageFacts.

(** ** A run of the script *)

Section ScriptFacts.
Context {W : Type} {C : Collaborators W}.

Lemma display_messages_run (past : list ChatEntry) (r : Runtime W) :
  display_messages past r = (Ret tt, r, display_calls past).
Proof.
  induction past as [|message rest IH]; [reflexivity|].
  cbn [display_messages]. unfold bind, st, emit. rewrite IH. reflexivity.
Qed.

Lemma script_run_unfold (limit : nat) (chat_input : bool -> option string) (r : Runtime W) :
  script_run limit chat_input r
  = match chat_input (is_disabled (session r)) with
    | None => (Ret tt, r, head_calls (session r) ++ tail_calls (session r))
    | Some text =>
        if String.eqb text ""
        then (Ret tt, r, head_calls (session r) ++ tail_calls (session r))
        else
          match process_new_prompt limit text r with
          | (Ret _, r1, t) =>
              if MAX_QUESTIONS <=? session_state.question_count (session r1)
              then (Exc RerunException, r1, head_calls (session r) ++ t)
              else (Ret tt, r1, head_calls (session r) ++ t ++ tail_calls (session r))
          | (Exc e, r1, t) => (Exc e, r1, head_calls (session r) ++ t)
          end
    end.
Proof.
  unfold script_run, bind, st, emit, get, ret, st_rerun, raise.
  rewrite display_messages_run. unfold head_calls, tail_calls, truthy.
  destruct (is_disabled (session r)); cbn [negb];
    (destruct (chat_input _) as [text|]; [destruct (String.eqb text "")|]); cbn [negb];
    try (generalize (process_new_prompt limit text r); intros [[[answer|e] r1] t];
         [destruct (MAX_QUESTIONS <=? _)|]);
    cbn; now rewrite ?app_nil_r, <- ?app_assoc.
Qed.

End ScriptFacts.

(** ** The graph calls collaborators only *)

Lemma first_model_input_app (t t' : list Event) (input : list BaseMessage) :
  first_model_input t = Some input -> first_model_input (t ++ t') = Some input.
Proof.
  induction t as [|ev t IH]; [discriminate|].
  destruct ev; cbn; auto.
Qed.

Lemma shown_app (body : string) (t t' : list Event) :
  shown body (t ++ t') <-> shown body t \/ shown body t'.
Proof. unfold shown. apply in_app_iff. Qed.

Lemma not_shown_without_page_calls (body : string) (t : list Event) :
  forallb (fun ev => negb (is_page_call ev)) t = true -> ~ shown body t.
Proof.
  intros Hall Hin. rewrite forallb_forall in Hall.
  specialize (Hall _ Hin). discriminate Hall.
Qed.

Section GraphCalls.
Context {W : Type} {C : Collaborators W}.

Lemma step_calls (n : Node) (state : AgentState) (w : W) :
  forallb (fun ev => negb (is_page_call ev)) (calls_made (step n state w)) = true.
Proof.
  destruct n.
  - destruct (llm_with_tools_invoke (messages state) w) as [[e|m] w1] eqn:Hllm.
    + now rewrite (step_agent_raise _ _ _ _ Hllm).
    + now rewrite (step_agent_returned _ _ _ _ Hllm).
  - destruct (tool_node_invoke (messages state) w) as [[e|results] w1] eqn:Htool.
    + now rewrite (step_call_tool_raise _ _ _ _ Htool).
    + now rewrite (step_call_tool_results _ _ _ _ Htool).
Qed.

Lemma run_from_calls (limit : nat) :
  forall (n : Node) (state : AgentState) (w : W),
    forallb (fun ev => negb (is_page_call ev)) (calls_made (run_from limit n state w)) = true.
Proof.
  induction limit as [|limit IH]; intros n state w; [reflexivity|].
  pose proof (step_calls n state w) as Hstep.
  cbn [run_from]. unfold bind.
  destruct (step n state w) as [[[[[|n'] state']|e] w1] t]; cbn in Hstep |- *.
  - now rewrite app_nil_r.
  - specialize (IH n' state' w1).
    destruct (run_from limit n' state' w1) as [[r w2] t2]. cbn in IH |- *.
    rewrite forallb_app, Hstep, IH. reflexivity.
  - exact Hstep.
Qed.

End GraphCalls.

(** ** The prompt block: what it returns, stores and calls *)

Section Submissions.
Context {W : Type} {C : Collaborators W}.

Lemma app_invoke_first_call (limit : nat) (prompt : string) (w : W) :
  first_model_input
    (calls_made (app_invoke (S limit) {| messages := [HumanMessage prompt] |} w))
  = Some [HumanMessage prompt].
Proof. unfold app_invoke, entry_point. apply run_from_agent_first_call. Qed.

Lemma process_new_prompt_first_call (limit : nat) (prompt : string) (r : Runtime W) :
  first_model_input (calls_made (process_new_prompt (S limit) prompt r))
  = Some [HumanMessage prompt].
Proof.
  rewrite process_new_prompt_unfold.
  pose proof (app_invoke_first_call limit prompt (world r)) as Hfirst.
  destruct (app_invoke (S limit) {| messages := [HumanMessage prompt] |} (world r))
    as [[[final|e] w'] t]; cbn in Hfirst.
  - destruct (last_item (messages final)) as [m|]; cbn; [|exact Hfirst].
    now apply first_model_input_app.
  - exact Hfirst.
Qed.

Lemma process_new_prompt_returned (limit : nat) (prompt : string) (r : Runtime W)
    (final : AgentState) (w' : W) (t : list Event) :
  app_invoke limit {| messages := [HumanMessage prompt] |} (world r) = (Ret final, w', t) ->
  exists answer,
    last_item (messages final) = Some (AIMessage answer [])
    /\ process_new_prompt limit prompt r
       = (Ret answer,
          {| session :=
               {| session_state.messages :=
                    session_state.messages (session r)
                    ++ [{| role := "user"; entry_content := prompt |};
                        {| role := "assistant"; entry_content := answer |}];
                  session_state.question_count :=
                    session_state.question_count (session r) + 1 |};
             world := w' |},
          opening_calls prompt ++ t ++ [Ui (Markdown answer)]).
Proof.
  intros Hrun.
  destruct (run_from_returned _ _ _ _ _ _ _ Hrun) as [[answer Hlast] _].
  exists answer. split; [exact Hlast|].
  rewrite process_new_prompt_unfold, Hrun, Hlast.
  unfold messages_append, question_recorded, increment_question_count. cbn.
  now rewrite <- app_assoc.
Qed.

Lemma process_new_prompt_raised (limit : nat) (prompt : string) (r : Runtime W)
    (e : exn) (w' : W) (t : list Event) :
  app_invoke limit {| messages := [HumanMessage prompt] |} (world r) = (Exc e, w', t) ->
  process_new_prompt limit prompt r
  = (Exc e,
     {| session :=
          {| session_state.messages :=
               session_state.messages (session r)
               ++ [{| role := "user"; entry_content := prompt |}];
             session_state.question_count :=
               session_state.question_count (session r) + 1 |};
        world := w' |},
     opening_calls prompt ++ t).
Proof. intros Hrun. now rewrite process_new_prompt_unfold, Hrun. Qed.

(** The session a prompt block leaves, whatever happened in the graph: the
    question counted and stored, and the answer stored after it when there
    is one. *)
Lemma process_new_prompt_session (limit : nat) (prompt : string) (r : Runtime W) :
  let s' := session (state_after (process_new_prompt limit prompt r)) in
  session_state.question_count s' = session_state.question_count (session r) + 1
  /\ (session_state.messages s'
      = session_state.messages (session r)
        ++ [{| role := "user"; entry_content := prompt |}]
      \/ exists answer,
          session_state.messages s'
          = session_state.messages (session r)
            ++ [{| role := "user"; entry_content := prompt |};
                {| role := "assistant"; entry_content := answer |}]).
Proof.
  rewrite process_new_prompt_unfold.
  destruct (app_invoke limit {| messages := [HumanMessage prompt] |} (world r))
    as [[[final|e] w'] t]; [destruct (last_item (messages final)) as [m|]|]; cbn;
    (split; [reflexivity|]); try (left; reflexivity).
  right. exists (content m). now rewrite <- app_assoc.
Qed.

Lemma script_run_state (limit : nat) (chat_input : bool -> option string) (r : Runtime W) :
  state_after (script_run limit chat_input r)
  = match chat_input (is_disabled (session r)) with
    | None => r
    | Some text =>
        if String.eqb text "" then r
        else state_after (process_new_prompt limit text r)
    end.
Proof.
  rewrite script_run_unfold.
  destruct (chat_input (is_disabled (session r))) as [text|]; [|reflexivity].
  destruct (String.eqb text ""); [reflexivity|].
  destruct (process_new_prompt limit text r) as [[[answer|e] r1] t]; try reflexivity.
  now destruct (MAX_QUESTIONS <=? session_state.question_count (session r1)).
Qed.

End Submissions.

(** ** A model that answers at once *)

(** C8: with a model that immediately returns a final answer without tool
    calls, one submission returns exactly that answer, calls the model
    exactly once and the tool node not at all. *)
Theorem immediate_answer_one_model_call (W : Type) (C : Collaborators W)
    (limit : nat) (prompt answer : string) (r : Runtime W) (w1 : W) :
  llm_with_tools_invoke [HumanMessage prompt] (world r) = (inr (AIMessage answer []), w1) ->
  outcome (process_new_prompt (S limit) prompt r) = Ret answer
  /\ model_invocations (calls_made (process_new_prompt (S limit) prompt r)) = 1%nat
  /\ tool_invocations (calls_made (process_new_prompt (S limit) prompt r)) = 0%nat
  /\ shown answer (calls_made (process_new_prompt (S limit) prompt r)).
Proof.
  intros Hllm.
  pose proof (run_from_end limit agent _ _ _ _ _
                (step_agent_answer {| messages := [HumanMessage prompt] |} _ _ _ Hllm))
    as Hrun.
  rewrite process_new_prompt_unfold. unfold app_invoke, entry_point.
  cbn [operator_add messages app] in Hrun |- *. rewrite Hrun. cbn.
  repeat split. unfold shown. cbn. tauto.
Qed.

Lemma immediate_answer_one_model_call_witness :
  outcome (process_new_prompt (C := scripted "$150") 1 "2+2?"
             {| session := fresh_session; world := [AIMessage "4" []] |}) = Ret "4"
  /\ model_invocations
       (calls_made (process_new_prompt (C := scripted "$150") 1 "2+2?"
                      {| session := fresh_session; world := [AIMessage "4" []] |})) = 1%nat
  /\ tool_invocations
       (calls_made (process_new_prompt (C := scripted "$150") 1 "2+2?"
                      {| session := fresh_session; world := [AIMessage "4" []] |})) = 0%nat
  /\ shown "4"
       (calls_made (process_new_prompt (C := scripted "$150") 1 "2+2?"
                      {| session := fresh_session; world := [AIMessage "4" []] |})).
Proof.
  apply (immediate_answer_one_model_call (list BaseMessage) (scripted "$150") O "2+2?" "4"
           {| session := fresh_session; world := [AIMessage "4" []] |} []).
  reflexivity.
Defined.

(** ** What the graph is invoked on *)

(** C1, as stated, fails: on the second question of a session the model is
    called on the new question alone, not on the session's two earlier
    messages followed by the new question. *)
Lemma second_question_sent_without_history :
  first_model_input
    (calls_made (process_new_prompt (C := scripted "") 1 "When was he born?"
                   returning_visitor))
  = Some [HumanMessage "When was he born?"]
  /\ as_transcript (session_state.messages (session returning_visitor))
     ++ [HumanMessage "When was he born?"]
     = [HumanMessage "Who wrote Hamlet?"; AIMessage "Shakespeare" [];
        HumanMessage "When was he born?"]
  /\ first_model_input
       (calls_made (process_new_prompt (C := scripted "") 1 "When was he born?"
                      returning_visitor))
     <> Some (as_transcript (session_state.messages (session returning_visitor))
              ++ [HumanMessage "When was he born?"]).
Proof. repeat split. discriminate. Qed.

(** C1, amended: for every submission the graph is invoked on a fresh
    one-message state that holds the new question only: the first model
    call receives just that question, the calls made and the outcome do
    not depend on what the session has stored, and when the graph returns
    the block returns the content of the last message of the returned
    state, which is a model message without tool calls. *)
Theorem agent_loop_invoked_on_new_question_alone (W : Type) (C : Collaborators W)
    (limit : nat) (prompt : string) :
  (forall r : Runtime W,
      first_model_input (calls_made (process_new_prompt (S limit) prompt r))
      = Some [HumanMessage prompt])
  /\ (forall (s s' : session_state.t) (w : W),
        outcome (process_new_prompt limit prompt {| session := s; world := w |})
        = outcome (process_new_prompt limit prompt {| session := s'; world := w |})
        /\ calls_made (process_new_prompt limit prompt {| session := s; world := w |})
           = calls_made (process_new_prompt limit prompt {| session := s'; world := w |}))
  /\ (forall (r : Runtime W) (final : AgentState) (w' : W) (t : list Event),
        app_invoke limit {| messages := [HumanMessage prompt] |} (world r)
        = (Ret final, w', t) ->
        exists answer,
          last_item (messages final) = Some (AIMessage answer [])
          /\ outcome (process_new_prompt limit prompt r) = Ret answer).
Proof.
  split; [|split].
  - intros r. apply process_new_prompt_first_call.
  - intros s s' w. rewrite !process_new_prompt_unfold. cbn [world].
    destruct (app_invoke limit {| messages := [HumanMessage prompt] |} w)
      as [[[final|e] w'] t]; [destruct (last_item (messages final))|];
      split; reflexivity.
  - intros r final w' t Hrun.
    destruct (process_new_prompt_returned _ _ _ _ _ _ Hrun) as (answer & Hlast & Heq).
    exists answer. split; [exact Hlast|]. now rewrite Heq.
Qed.

Lemma agent_loop_invoked_on_new_question_alone_witness :
  exists answer,
    last_item [HumanMessage "When was he born?"; AIMessage "In 1564" []]
    = Some (AIMessage answer [])
    /\ outcome (process_new_prompt (C := scripted "") 1 "When was he born?"
                  returning_visitor) = Ret answer.
Proof.
  apply (proj2 (proj2 (agent_loop_invoked_on_new_question_alone
                         (list BaseMessage) (scripted "") 1 "When was he born?"))
           returning_visitor
           {| messages := [HumanMessage "When was he born?"; AIMessage "In 1564" []] |}
           []
           [ModelCall [HumanMessage "When was he born?"] (inr (AIMessage "In 1564" []))]).
  reflexivity.
Defined.

(** ** What a submission stores *)

(** C10, as stated, fails: a submission the script accepts while the model
    cannot be reached leaves one more entry in the session, the user
    entry, and not two. *)
Lemma failed_submission_stores_question_only :
  chat_input_widget (Some "x") (is_disabled (session model_down)) = Some "x"
  /\ session_state.messages
       (session (state_after (script_run (C := scripted "") 3
                                (chat_input_widget (Some "x")) model_down)))
     = [{| role := "user"; entry_content := "x" |}]
  /\ List.length
       (session_state.messages
          (session (state_after (script_run (C := scripted "") 3
                                   (chat_input_widget (Some "x")) model_down))))
     <> (List.length (session_state.messages (session model_down)) + 2)%nat.
Proof. repeat split. discriminate. Qed.

(** C10, amended: a submission the script accepts raises the counter by
    exactly one.  When its graph run returns, it leaves the session with
    exactly two more entries, the user entry with the question followed by
    the assistant entry with the content of the final message; whatever
    tool requests and tool results the returned graph state holds, none of
    them is stored.  When its graph run raises, it leaves the session with
    exactly one more entry, the user entry. *)
Theorem accepted_submission_stores_question_and_answer (W : Type) (C : Collaborators W)
    (limit : nat) (chat_input : bool -> option string) (text : string) (r : Runtime W) :
  chat_input (is_disabled (session r)) = Some text ->
  text <> "" ->
  session_state.question_count (session (state_after (script_run limit chat_input r)))
  = session_state.question_count (session r) + 1
  /\ (forall (final : AgentState) (w' : W) (t : list Event),
        app_invoke limit {| messages := [HumanMessage text] |} (world r)
        = (Ret final, w', t) ->
        exists answer,
          last_item (messages final) = Some (AIMessage answer [])
          /\ session (state_after (script_run limit chat_input r))
             = {| session_state.messages :=
                    session_state.messages (session r)
                    ++ [{| role := "user"; entry_content := text |};
                        {| role := "assistant"; entry_content := answer |}];
                  session_state.question_count :=
                    session_state.question_count (session r) + 1 |}
          /\ List.length (session_state.messages
                            (session (state_after (script_run limit chat_input r))))
             = (List.length (session_state.messages (session r)) + 2)%nat)
  /\ (forall (e : exn) (w' : W) (t : list Event),
        app_invoke limit {| messages := [HumanMessage text] |} (world r)
        = (Exc e, w', t) ->
        session (state_after (script_run limit chat_input r))
        = {| session_state.messages :=
               session_state.messages (session r)
               ++ [{| role := "user"; entry_content := text |}];
             session_state.question_count :=
               session_state.question_count (session r) + 1 |}
        /\ List.length (session_state.messages
                          (session (state_after (script_run limit chat_input r))))
           = (List.length (session_state.messages (session r)) + 1)%nat).
Proof.
  intros Hinput Htext. apply String.eqb_neq in Htext.
  rewrite script_run_state, Hinput, Htext. split; [|split].
  - apply (process_new_prompt_session limit text r).
  - intros final w' t Hrun.
    destruct (process_new_prompt_returned _ _ _ _ _ _ Hrun) as (answer & Hlast & Heq).
    exists answer. split; [exact Hlast|]. rewrite Heq. cbn.
    split; [reflexivity|]. now rewrite length_app.
  - intros e w' t Hrun.
    rewrite (process_new_prompt_raised _ _ _ _ _ _ Hrun). cbn.
    split; [reflexivity|]. now rewrite length_app.
Qed.

Lemma accepted_submission_stores_question_and_answer_witness :
  (exists answer,
      last_item [HumanMessage "Apple?";
                 AIMessage "" [search_call "Apple stock price"];
                 ToolMessage "$150" "call_1";
                 AIMessage "Apple trades at $150" []]
      = Some (AIMessage answer [])
      /\ session (state_after (script_run (C := scripted "$150") 3
                                 (chat_input_widget (Some "Apple?")) first_visit))
         = {| session_state.messages :=
                [] ++ [{| role := "user"; entry_content := "Apple?" |};
                       {| role := "assistant"; entry_content := answer |}];
              session_state.question_count := 0 + 1 |}
      /\ List.length (session_state.messages
                        (session (state_after (script_run (C := scripted "$150") 3
                                                 (chat_input_widget (Some "Apple?"))
                                                 first_visit))))
         = (0 + 2)%nat)
  /\ session (state_after (script_run (C := scripted "") 3
                             (chat_input_widget (Some "x")) model_down))
     = {| session_state.messages := [] ++ [{| role := "user"; entry_content := "x" |}];
          session_state.question_count := 0 + 1 |}.
Proof.
  split.
  - apply (proj1 (proj2 (accepted_submission_stores_question_and_answer
                           (list BaseMessage) (scripted "$150") 3
                           (chat_input_widget (Some "Apple?")) "Apple?" first_visit
                           eq_refl ltac:(discriminate)))
             {| messages := [HumanMessage "Apple?";
                             AIMessage "" [search_call "Apple stock price"];
                             ToolMessage "$150" "call_1";
                             AIMessage "Apple trades at $150" []] |}
             []
             [ModelCall [HumanMessage "Apple?"]
                (inr (AIMessage "" [search_call "Apple stock price"]));
              ToolNodeCall [HumanMessage "Apple?";
                            AIMessage "" [search_call "Apple stock price"]]
                (inr [ToolMessage "$150" "call_1"]);
              ModelCall [HumanMessage "Apple?";
                         AIMessage "" [search_call "Apple stock price"];
                         ToolMessage "$150" "call_1"]
                (inr (AIMessage "Apple trades at $150" []))]).
    reflexivity.
  - apply (proj2 (proj2 (accepted_submission_stores_question_and_answer
                           (list BaseMessage) (scripted "") 3
                           (chat_input_widget (Some "x")) "x" model_down
                           eq_refl ltac:(discriminate)))
             (CollaboratorError "model unavailable") []
             [ModelCall [HumanMessage "x"] (inl (CollaboratorError "model unavailable"))]).
    reflexivity.
Defined.

(** ** When the graph raises *)

(** C4, as stated, fails in its second half: when the model call raises,
    the prompt block gives no answer at all.  The exception leaves the
    block and the script run, no assistant entry is stored, and the only
    text the page was asked to show is the question. *)
Lemma model_failure_escapes_the_script :
  outcome (process_new_prompt (C := scripted "") 3 "x" model_down)
  = Exc (CollaboratorError "model unavailable")
  /\ outcome (script_run (C := scripted "") 3 (chat_input_widget (Some "x")) model_down)
     = Exc (CollaboratorError "model unavailable")
  /\ ~ (exists answer,
           outcome (process_new_prompt (C := scripted "") 3 "x" model_down) = Ret answer)
  /\ session (state_after (script_run (C := scripted "") 3
                             (chat_input_widget (Some "x")) model_down))
     = {| session_state.messages := [{| role := "user"; entry_content := "x" |}];
          session_state.question_count := 1 |}
  /\ filter is_page_call
       (calls_made (process_new_prompt (C := scripted "") 3 "x" model_down))
     = opening_calls "x".
Proof.
  repeat split. intros [answer H]. discriminate H.
Qed.

(** C4, amended: when the graph raises during a submission, the counter
    has already been incremented and the question stored; the exception
    leaves the prompt block and the run of the script; no assistant entry
    is stored, the page is asked to show no text but the question, and the
    session keeps the counter and the messages it had when the exception
    was raised. *)
Theorem failed_loop_counts_the_question_and_raises (W : Type) (C : Collaborators W)
    (limit : nat) (prompt : string) (r : Runtime W) (e : exn) (w' : W) (t : list Event) :
  app_invoke limit {| messages := [HumanMessage prompt] |} (world r) = (Exc e, w', t) ->
  outcome (process_new_prompt limit prompt r) = Exc e
  /\ session (state_after (process_new_prompt limit prompt r))
     = {| session_state.messages :=
            session_state.messages (session r)
            ++ [{| role := "user"; entry_content := prompt |}];
          session_state.question_count := session_state.question_count (session r) + 1 |}
  /\ (forall body, shown body (calls_made (process_new_prompt limit prompt r)) ->
                   body = prompt)
  /\ (forall chat_input : bool -> option string,
        chat_input (is_disabled (session r)) = Some prompt ->
        prompt <> "" ->
        outcome (script_run limit chat_input r) = Exc e
        /\ state_after (script_run limit chat_input r)
           = state_after (process_new_prompt limit prompt r)).
Proof.
  intros Hrun. pose proof (process_new_prompt_raised _ _ _ _ _ _ Hrun) as Heq.
  split; [now rewrite Heq|]. split; [now rewrite Heq|]. split.
  - rewrite Heq. cbn [calls_made snd]. intros body Hshown.
    apply shown_app in Hshown. destruct Hshown as [Hopening|Hgraph].
    + unfold shown, opening_calls in Hopening. cbn in Hopening.
      destruct Hopening as [H|[H|[H|[H|[]]]]]; try discriminate H.
      now injection H.
    + exfalso. revert Hgraph. apply not_shown_without_page_calls.
      pose proof (run_from_calls limit entry_point
                    {| messages := operator_add [] [HumanMessage prompt] |} (world r)) as Hcalls.
      unfold app_invoke in Hrun. cbn [messages] in Hrun. now rewrite Hrun in Hcalls.
  - intros chat_input Hinput Htext. apply String.eqb_neq in Htext. split.
    + now rewrite script_run_unfold, Hinput, Htext, Heq.
    + now rewrite script_run_state, Hinput, Htext.
Qed.

Lemma failed_loop_counts_the_question_and_raises_witness :
  outcome (process_new_prompt (C := scripted "") 3 "x" model_down)
  = Exc (CollaboratorError "model unavailable")
  /\ session (state_after (process_new_prompt (C := scripted "") 3 "x" model_down))
     = {| session_state.messages := [] ++ [{| role := "user"; entry_content := "x" |}];
          session_state.question_count := 0 + 1 |}
  /\ outcome (script_run (C := scripted "") 3 (chat_input_widget (Some "x")) model_down)
     = Exc (CollaboratorError "model unavailable").
Proof.
  destruct (failed_loop_counts_the_question_and_raises
              (list BaseMessage) (scripted "") 3 "x" model_down
              (CollaboratorError "model unavailable") []
              [ModelCall [HumanMessage "x"] (inl (CollaboratorError "model unavailable"))]
              eq_refl)
    as (Hout & Hsession & _ & Hscript).
  split; [exact Hout|]. split; [exact Hsession|].
  apply (Hscript (chat_input_widget (Some "x"))); [reflexivity|discriminate].
Defined.

(** ** The question budget *)

Lemma page_calls_reach_no_collaborator (t : list Event) :
  forallb is_page_call t = true ->
  model_invocations t = 0%nat /\ tool_invocations t = 0%nat.
Proof.
  unfold model_invocations, tool_invocations.
  induction t as [|ev t IH]; [split; reflexivity|].
  cbn [forallb]. intros H. apply andb_prop in H. destruct H as [Hev Ht].
  destruct ev; try discriminate Hev. cbn. now apply IH.
Qed.

Lemma idle_calls_are_page_calls (s : session_state.t) :
  forallb is_page_call (head_calls s ++ tail_calls s) = true.
Proof.
  unfold head_calls, tail_calls. cbn [app forallb is_page_call andb].
  rewrite !forallb_app. apply andb_true_intro. split; [apply andb_true_intro; split|].
  - unfold display_calls. induction (session_state.messages s) as [|m ms IH]; auto.
  - now destruct (is_disabled s).
  - now destruct (is_disabled s).
Qed.

Section Budget.
Context {W : Type} {C : Collaborators W}.

Lemma script_run_count (limit : nat) (chat_input : bool -> option string) (r : Runtime W) :
  session_state.question_count (session (state_after (script_run limit chat_input r)))
  = session_state.question_count (session r)
  \/ (session_state.question_count (session (state_after (script_run limit chat_input r)))
      = session_state.question_count (session r) + 1
      /\ exists text, chat_input (is_disabled (session r)) = Some text).
Proof.
  rewrite script_run_state.
  destruct (chat_input (is_disabled (session r))) as [text|]; [|now left].
  destruct (String.eqb text ""); [now left|].
  right. split; [|now exists text].
  apply (process_new_prompt_session limit text r).
Qed.

Lemma script_run_within_budget (limit : nat) (chat_input : bool -> option string)
    (r : Runtime W) :
  honours_disabled chat_input ->
  0 <= session_state.question_count (session r) <= MAX_QUESTIONS ->
  0 <= session_state.question_count (session (state_after (script_run limit chat_input r)))
    <= MAX_QUESTIONS.
Proof.
  intros Hwidget Hcount.
  destruct (script_run_count limit chat_input r) as [Hsame|[Hnext [text Htext]]].
  - now rewrite Hsame.
  - rewrite Hnext. unfold is_disabled, questions_left in Htext.
    destruct (MAX_QUESTIONS - session_state.question_count (session r) <=? 0) eqn:Hleft.
    + unfold honours_disabled in Hwidget. congruence.
    + apply Z.leb_gt in Hleft. lia.
Qed.


Lemma run_session_within_budget (limit : nat) (widgets : list (bool -> option string)) :
  forall r : Runtime W,
    Forall honours_disabled widgets ->
    0 <= session_state.question_count (session r) <= MAX_QUESTIONS ->
    0 <= session_state.question_count (session (run_session limit widgets r))
      <= MAX_QUESTIONS.
Proof.
  induction widgets as [|chat_input rest IH]; intros r Hall Hcount; [exact Hcount|].
  inversion Hall as [|? ? Hwidget Hrest]; subst.
  apply (IH (state_after (script_run limit chat_input r)) Hrest).
  now apply script_run_within_budget.
Qed.

End Budget.

(** C2, as stated, fails: with nothing left of the budget, a prompt that
    reaches the script is processed like any other.  The model is called
    and the counter goes to five. *)
Lemma exhausted_budget_prompt_still_processed :
  questions_left (session budget_spent) = 0
  /\ model_invocations
       (calls_made (script_run (C := scripted "") 1 (unlocked_widget "q5") budget_spent))
     = 1%nat
  /\ first_model_input
       (calls_made (process_new_prompt (C := scripted "") 1 "q5" budget_spent))
     = Some [HumanMessage "q5"]
  /\ outcome (process_new_prompt (C := scripted "") 1 "q5" budget_spent) = Ret "a5"
  /\ session_state.question_count
       (session (state_after (script_run (C := scripted "") 1 (unlocked_widget "q5")
                                budget_spent)))
     = 5.
Proof. repeat split. Qed.

(** C2, amended: when nothing is left of the budget the script passes
    [disabled = True] to the chat input; with a chat input that then
    delivers nothing, the run calls neither the model nor the tool node and
    leaves the session as it was.  The prompt block itself does not look at
    the budget: given a prompt it calls the model. *)
Theorem exhausted_budget_refused_by_disabled_input (W : Type) (C : Collaborators W)
    (limit : nat) (chat_input : bool -> option string) (r : Runtime W) :
  questions_left (session r) <= 0 ->
  honours_disabled chat_input ->
  is_disabled (session r) = true
  /\ script_run limit chat_input r
     = (Ret tt, r, head_calls (session r) ++ tail_calls (session r))
  /\ model_invocations (calls_made (script_run limit chat_input r)) = 0%nat
  /\ tool_invocations (calls_made (script_run limit chat_input r)) = 0%nat
  /\ (forall prompt,
        first_model_input (calls_made (process_new_prompt (S limit) prompt r))
        = Some [HumanMessage prompt]).
Proof.
  intros Hleft Hwidget.
  assert (Hdisabled : is_disabled (session r) = true)
    by (unfold is_disabled; now apply Z.leb_le).
  assert (Hrun : script_run limit chat_input r
                 = (Ret tt, r, head_calls (session r) ++ tail_calls (session r))).
  { rewrite script_run_unfold, Hdisabled. unfold honours_disabled in Hwidget.
    now rewrite Hwidget. }
  split; [exact Hdisabled|]. split; [exact Hrun|].
  rewrite Hrun. cbn [calls_made snd].
  destruct (page_calls_reach_no_collaborator _ (idle_calls_are_page_calls (session r)))
    as [Hmodel Htool].
  repeat split; [exact Hmodel|exact Htool|].
  intros prompt. apply process_new_prompt_first_call.
Qed.

Lemma exhausted_budget_refused_by_disabled_input_witness :
  is_disabled (session budget_spent) = true
  /\ script_run (C := scripted "") 1 (chat_input_widget (Some "q5")) budget_spent
     = (Ret tt, budget_spent,
        head_calls (session budget_spent) ++ tail_calls (session budget_spent))
  /\ model_invocations
       (calls_made (script_run (C := scripted "") 1 (chat_input_widget (Some "q5"))
                      budget_spent)) = 0%nat
  /\ tool_invocations
       (calls_made (script_run (C := scripted "") 1 (chat_input_widget (Some "q5"))
                      budget_spent)) = 0%nat.
Proof.
  destruct (exhausted_budget_refused_by_disabled_input
              (list BaseMessage) (scripted "") 1 (chat_input_widget (Some "q5"))
              budget_spent)
    as (Hdisabled & Hrun & Hmodel & Htool & _).
  - vm_compute. discriminate.
  - reflexivity.
  - repeat split; assumption.
Defined.




(** ** Both message lists only grow at the end *)

Section AppendOnly.
Context {W : Type} {C : Collaborators W}.




End AppendOnly.



(** ** A tool call that fails *)




(* ------------------------------------------------------------------ *)
(** * More about the graph *)

Lemma last_item_cons {A : Type} (x y : A) (xs : list A) :
  last_item xs = Some y -> last_item (x :: xs) = Some y.
Proof. destruct xs; [discriminate|]. intros H. cbn [last_item]. exact H. Qed.

Lemma model_invocations_cons (ev : Event) (t : list Event) :
  model_invocations (ev :: t)
  = ((if is_model_call ev then 1 else 0) + model_invocations t)%nat.
Proof. unfold model_invocations. cbn [filter]. now destruct (is_model_call ev). Qed.

Lemma tool_invocations_cons (ev : Event) (t : list Event) :
  tool_invocations (ev :: t)
  = ((if is_tool_call ev then 1 else 0) + tool_invocations t)%nat.
Proof. unfold tool_invocations. cbn [filter]. now destruct (is_tool_call ev). Qed.

Section RunsFacts.
Context {W : Type} {C : Collaborators W}.

(** Every run of the compiled graph is a run of the relation. *)
Lemma run_from_runs (limit : nat) :
  forall (n : Node) (state : AgentState) (w : W),
    runs n state w
      (outcome (run_from limit n state w))
      (state_after (run_from limit n state w))
      (calls_made (run_from limit n state w)).
Proof.
  induction limit as [|limit IH]; intros n state w; [apply runs_limit_reached|].
  destruct n.
  - destruct (llm_with_tools_invoke (messages state) w) as [[e|m] w1] eqn:Hllm.
    + rewrite (run_from_raise _ _ _ _ _ _ _ (step_agent_raise _ _ _ _ Hllm)).
      now apply runs_model_raises.
    + pose proof (step_agent_returned _ _ _ _ Hllm) as Hstep.
      destruct m as [c|c [|call calls]|c i]; cbn [tool_calls] in Hstep.
      * rewrite (run_from_raise _ _ _ _ _ _ _ Hstep).
        now apply runs_reply_without_tool_calls_attribute.
      * rewrite (run_from_end _ _ _ _ _ _ _ Hstep). now apply runs_answer.
      * rewrite (run_from_goto _ _ _ _ _ _ _ _ Hstep).
        cbn [outcome state_after calls_made fst snd app].
        eapply runs_request; [exact Hllm|apply IH].
      * rewrite (run_from_raise _ _ _ _ _ _ _ Hstep).
        now apply runs_reply_without_tool_calls_attribute.
  - destruct (tool_node_invoke (messages state) w) as [[e|results] w1] eqn:Htool.
    + rewrite (run_from_raise _ _ _ _ _ _ _ (step_call_tool_raise _ _ _ _ Htool)).
      now apply runs_tools_raise.
    + rewrite (run_from_goto _ _ _ _ _ _ _ _ (step_call_tool_results _ _ _ _ Htool)).
      cbn [outcome state_after calls_made fst snd app].
      eapply runs_tools_return; [exact Htool|apply IH].
Qed.

Lemma runs_fed_whole_state (n : Node) (state : AgentState) (w w' : W)
    (r : result AgentState) (t : list Event) :
  runs n state w r w' t -> fed_whole_state (messages state) t.
Proof.
  induction 1; cbn; auto.
Qed.

Lemma runs_alternating (n : Node) (state : AgentState) (w w' : W)
    (r : result AgentState) (t : list Event) :
  runs n state w r w' t -> alternating n t = true.
Proof.
  induction 1; cbn; auto.
Qed.

Lemma runs_returned_counts (n : Node) (state : AgentState) (w w' : W)
    (r : result AgentState) (t : list Event) :
  runs n state w r w' t ->
  forall final, r = Ret final ->
  model_invocations t
  = match n with
    | agent => S (tool_invocations t)
    | call_tool => tool_invocations t
    end.
Proof.
  induction 1 as [n state w|state w e w1 Hllm|state w m e w1 Hllm Hcalls
                 |state w c w1 Hllm|state w c call calls w1 r w2 t Hllm Hrest IH
                 |state w e w1 Htool|state w results w1 r w2 t Htool Hrest IH];
    intros final Hret; try discriminate Hret.
  - reflexivity.
  - rewrite model_invocations_cons, tool_invocations_cons. cbn.
    now rewrite (IH final Hret).
  - rewrite model_invocations_cons, tool_invocations_cons. cbn.
    now rewrite (IH final Hret).
Qed.

Lemma runs_tool_node_inputs (n : Node) (state : AgentState) (w w' : W)
    (r : result AgentState) (t : list Event) :
  runs n state w r w' t ->
  (n = call_tool -> ends_with_request (messages state)) ->
  forall input out, In (ToolNodeCall input out) t -> ends_with_request input.
Proof.
  induction 1 as [n state w|state w e w1 Hllm|state w m e w1 Hllm Hcalls
                 |state w c w1 Hllm|state w c call calls w1 r w2 t Hllm Hrest IH
                 |state w e w1 Htool|state w results w1 r w2 t Htool Hrest IH];
    intros Hready input out Hin; cbn in Hin.
  - contradiction.
  - destruct Hin as [Heq|[]]. discriminate Heq.
  - destruct Hin as [Heq|[]]. discriminate Heq.
  - destruct Hin as [Heq|[]]. discriminate Heq.
  - destruct Hin as [Heq|Hin]; [discriminate Heq|].
    apply (IH (fun _ => ex_intro _ c (ex_intro _ call (ex_intro _ calls
                                                         (last_item_app _ _))))
              input out Hin).
  - destruct Hin as [Heq|[]]. injection Heq as <- _. now apply Hready.
  - destruct Hin as [Heq|Hin].
    + injection Heq as <- _. now apply Hready.
    + apply (IH (fun Hnode => ltac:(discriminate Hnode)) input out Hin).
Qed.

(** Where the exception of a run comes from: the runtime's recursion
    limit, one collaborator call made for each node execution it allowed;
    or the last call; or a reply that is not a model message. *)
Lemma run_from_exception_origin (limit : nat) :
  forall (n : Node) (state : AgentState) (w : W) (e : exn),
    outcome (run_from limit n state w) = Exc e ->
    (e = GraphRecursionError
     /\ List.length (calls_made (run_from limit n state w)) = limit)
    \/ exists input,
        last_item (calls_made (run_from limit n state w)) = Some (ModelCall input (inl e))
        \/ last_item (calls_made (run_from limit n state w))
           = Some (ToolNodeCall input (inl e))
        \/ (e = AttributeError
            /\ exists m,
                last_item (calls_made (run_from limit n state w))
                = Some (ModelCall input (inr m))
                /\ forall c calls, m <> AIMessage c calls).
Proof.
  induction limit as [|limit IH]; intros n state w e Hexc.
  - left. cbn in Hexc. injection Hexc as <-. split; reflexivity.
  - destruct n.
    + destruct (llm_with_tools_invoke (messages state) w) as [[e0|m] w1] eqn:Hllm.
      * rewrite (run_from_raise _ _ _ _ _ _ _ (step_agent_raise _ _ _ _ Hllm)) in Hexc |- *.
        injection Hexc as <-. right. exists (messages state). now left.
      * pose proof (step_agent_returned _ _ _ _ Hllm) as Hstep.
        destruct m as [c|c [|call calls]|c i]; cbn [tool_calls] in Hstep.
        -- rewrite (run_from_raise _ _ _ _ _ _ _ Hstep) in Hexc |- *.
           injection Hexc as <-. right. exists (messages state). right. right.
           split; [reflexivity|]. eexists. split; [reflexivity|].
           intros c' calls'. discriminate.
        -- rewrite (run_from_end _ _ _ _ _ _ _ Hstep) in Hexc. discriminate Hexc.
        -- rewrite (run_from_goto _ _ _ _ _ _ _ _ Hstep) in Hexc |- *.
           cbn [outcome calls_made fst snd app] in Hexc |- *.
           destruct (IH _ _ _ _ Hexc) as [[He Hlen]|[input [H1|[H2|(He & m & Hm & Hnot)]]]].
           ++ left. split; [exact He|]. cbn [List.length]. now f_equal.
           ++ right. exists input. left. now apply last_item_cons.
           ++ right. exists input. right. left. now apply last_item_cons.
           ++ right. exists input. right. right. split; [exact He|].
              exists m. split; [now apply last_item_cons|exact Hnot].
        -- rewrite (run_from_raise _ _ _ _ _ _ _ Hstep) in Hexc |- *.
           injection Hexc as <-. right. exists (messages state). right. right.
           split; [reflexivity|]. eexists. split; [reflexivity|].
           intros c' calls'. discriminate.
    + destruct (tool_node_invoke (messages state) w) as [[e0|results] w1] eqn:Htool.
      * rewrite (run_from_raise _ _ _ _ _ _ _ (step_call_tool_raise _ _ _ _ Htool))
          in Hexc |- *.
        injection Hexc as <-. right. exists (messages state). right. now left.
      * rewrite (run_from_goto _ _ _ _ _ _ _ _ (step_call_tool_results _ _ _ _ Htool))
          in Hexc |- *.
        cbn [outcome calls_made fst snd app] in Hexc |- *.
        destruct (IH _ _ _ _ Hexc) as [[He Hlen]|[input [H1|[H2|(He & m & Hm & Hnot)]]]].
        -- left. split; [exact He|]. cbn [List.length]. now f_equal.
        -- right. exists input. left. now apply last_item_cons.
        -- right. exists input. right. left. now apply last_item_cons.
        -- right. exists input. right. right. split; [exact He|].
           exists m. split; [now apply last_item_cons|exact Hnot].
Qed.

End RunsFacts.

(** X1: within one run of the graph every collaborator call, to the model
    or to the tool node, receives the whole state gathered so far: the
    messages the run started from followed by everything the earlier calls
    of the run produced, in order. *)
Theorem every_call_receives_whole_state (W : Type) (C : Collaborators W)
    (limit : nat) (n : Node) (state : AgentState) (w : W) :
  fed_whole_state (messages state) (calls_made (run_from limit n state w)).
Proof.
  apply (runs_fed_whole_state n state w _ _ _ (run_from_runs limit n state w)).
Qed.

(** X2: the calls of a run started at the entry node take turns, model
    first, then tool node, then model, and so on, with no page call in
    between; a run that returns has made exactly one model call more than
    tool-node calls. *)
Theorem collaborator_calls_take_turns (W : Type) (C : Collaborators W)
    (limit : nat) (state : AgentState) (w : W) :
  alternating agent (calls_made (run_from limit agent state w)) = true
  /\ (forall (final : AgentState) (w' : W) (t : list Event),
        run_from limit agent state w = (Ret final, w', t) ->
        model_invocations t = S (tool_invocations t)).
Proof.
  split.
  - apply (runs_alternating agent state w _ _ _ (run_from_runs limit agent state w)).
  - intros final w' t Hrun.
    pose proof (run_from_runs limit agent state w) as Hruns.
    rewrite Hrun in Hruns. cbn in Hruns.
    apply (runs_returned_counts _ _ _ _ _ _ Hruns final eq_refl).
Qed.

Lemma collaborator_calls_take_turns_witness :
  model_invocations
    [ModelCall [HumanMessage "Apple?"]
       (inr (AIMessage "" [search_call "Apple stock price"]));
     ToolNodeCall [HumanMessage "Apple?"; AIMessage "" [search_call "Apple stock price"]]
       (inr [ToolMessage "$150" "call_1"]);
     ModelCall [HumanMessage "Apple?"; AIMessage "" [search_call "Apple stock price"];
                ToolMessage "$150" "call_1"]
       (inr (AIMessage "Apple trades at $150" []))]
  = S (tool_invocations
         [ModelCall [HumanMessage "Apple?"]
            (inr (AIMessage "" [search_call "Apple stock price"]));
          ToolNodeCall [HumanMessage "Apple?"; AIMessage "" [search_call "Apple stock price"]]
            (inr [ToolMessage "$150" "call_1"]);
          ModelCall [HumanMessage "Apple?"; AIMessage "" [search_call "Apple stock price"];
                     ToolMessage "$150" "call_1"]
            (inr (AIMessage "Apple trades at $150" []))]).
Proof.
  apply (proj2 (collaborator_calls_take_turns (list BaseMessage) (scripted "$150") 3
                  {| messages := [HumanMessage "Apple?"] |} (world first_visit))
           {| messages := [HumanMessage "Apple?";
                           AIMessage "" [search_call "Apple stock price"];
                           ToolMessage "$150" "call_1";
                           AIMessage "Apple trades at $150" []] |}
           []).
  reflexivity.
Defined.

(** X3: in a run started at the entry node, the tool node is only ever
    called on a state whose last message is a model message with at least
    one tool call. *)
Theorem tool_node_runs_only_on_a_request (W : Type) (C : Collaborators W)
    (limit : nat) (state : AgentState) (w : W)
    (input : list BaseMessage) (out : exn + list BaseMessage) :
  In (ToolNodeCall input out) (calls_made (run_from limit agent state w)) ->
  ends_with_request input.
Proof.
  apply (runs_tool_node_inputs agent state w _ _ _ (run_from_runs limit agent state w)).
  intros Hnode. discriminate Hnode.
Qed.

Lemma tool_node_runs_only_on_a_request_witness :
  ends_with_request [HumanMessage "Apple?"; AIMessage "" [search_call "Apple stock price"]].
Proof.
  apply (tool_node_runs_only_on_a_request (list BaseMessage) (scripted "$150") 3
           {| messages := [HumanMessage "Apple?"] |} (world first_visit)
           [HumanMessage "Apple?"; AIMessage "" [search_call "Apple stock price"]]
           (inr [ToolMessage "$150" "call_1"])).
  right. left. reflexivity.
Defined.

(** X4: a run of the graph ends with an exception only in three ways:
    the runtime raised [GraphRecursionError] because the recursion limit
    was used up, after one collaborator call for each node execution the
    limit allowed; or the last call of the run, to the model or to the tool
    node, raised that exception; or the model's last reply was not a model
    message, and reading its [tool_calls] raised AttributeError.  In
    particular [should_continue] never fails on an empty state inside the
    graph. *)
Theorem graph_exception_comes_from_limit_or_last_call (W : Type) (C : Collaborators W)
    (limit : nat) (n : Node) (state : AgentState) (w : W) (e : exn) :
  outcome (run_from limit n state w) = Exc e ->
  (e = GraphRecursionError
   /\ List.length (calls_made (run_from limit n state w)) = limit)
  \/ exists input,
      last_item (calls_made (run_from limit n state w)) = Some (ModelCall input (inl e))
      \/ last_item (calls_made (run_from limit n state w)) = Some (ToolNodeCall input (inl e))
      \/ (e = AttributeError
          /\ exists m,
              last_item (calls_made (run_from limit n state w))
              = Some (ModelCall input (inr m))
              /\ forall c calls, m <> AIMessage c calls).
Proof.
  intros Hexc. now apply run_from_exception_origin.
Qed.

Lemma graph_exception_comes_from_limit_or_last_call_witness :
  ((CollaboratorError "model unavailable" = GraphRecursionError
    /\ List.length (calls_made (run_from (C := scripted "") 3 agent
                                  {| messages := [HumanMessage "x"] |} [])) = 3%nat)
   \/ exists input,
       last_item (calls_made (run_from (C := scripted "") 3 agent
                                {| messages := [HumanMessage "x"] |} []))
       = Some (ModelCall input (inl (CollaboratorError "model unavailable")))
       \/ last_item (calls_made (run_from (C := scripted "") 3 agent
                                   {| messages := [HumanMessage "x"] |} []))
          = Some (ToolNodeCall input (inl (CollaboratorError "model unavailable")))
       \/ (CollaboratorError "model unavailable" = AttributeError
           /\ exists m,
               last_item (calls_made (run_from (C := scripted "") 3 agent
                                        {| messages := [HumanMessage "x"] |} []))
               = Some (ModelCall input (inr m))
               /\ forall c calls, m <> AIMessage c calls))
  /\ ((GraphRecursionError = GraphRecursionError
       /\ List.length (calls_made (run_from (C := insatiable) 4 agent
                                     {| messages := [HumanMessage "x"] |} tt)) = 4%nat)
      \/ exists input,
          last_item (calls_made (run_from (C := insatiable) 4 agent
                                   {| messages := [HumanMessage "x"] |} tt))
          = Some (ModelCall input (inl GraphRecursionError))
          \/ last_item (calls_made (run_from (C := insatiable) 4 agent
                                      {| messages := [HumanMessage "x"] |} tt))
             = Some (ToolNodeCall input (inl GraphRecursionError))
          \/ (GraphRecursionError = AttributeError
              /\ exists m,
                  last_item (calls_made (run_from (C := insatiable) 4 agent
                                           {| messages := [HumanMessage "x"] |} tt))
                  = Some (ModelCall input (inr m))
                  /\ forall c calls, m <> AIMessage c calls)).
Proof.
  split.
  - apply (graph_exception_comes_from_limit_or_last_call
             (list BaseMessage) (scripted "") 3 agent
             {| messages := [HumanMessage "x"] |} []
             (CollaboratorError "model unavailable")).
    reflexivity.
  - apply (graph_exception_comes_from_limit_or_last_call
             unit insatiable 4 agent {| messages := [HumanMessage "x"] |} tt
             GraphRecursionError).
    reflexivity.
Defined.

(** A run of the graph that returns does not depend on the recursion
    limit: every larger limit gives the same state, the same world and the
    same calls. *)
Lemma run_from_larger_limit (W : Type) (C : Collaborators W)
    (limit extra : nat) (n : Node) (state final : AgentState) (w w' : W)
    (t : list Event) :
  run_from limit n state w = (Ret final, w', t) ->
  run_from (limit + extra) n state w = (Ret final, w', t).
Proof.
  revert n state final w w' t.
  induction limit as [|limit IH]; intros n state final w w' t Hrun;
    [discriminate Hrun|].
  cbn [run_from Nat.add] in Hrun |- *. unfold bind in Hrun |- *.
  destruct (step n state w) as [[[[[|n'] state']|e] w1] t1]; cbn [fst snd] in Hrun |- *;
    try exact Hrun.
  destruct (run_from limit n' state' w1) as [[r w2] t2] eqn:Hrest.
  destruct r as [final'|e]; [|discriminate Hrun].
  now rewrite (IH _ _ _ _ _ _ Hrest).
Qed.

(* ------------------------------------------------------------------ *)
(** * More about the page *)

(** X5: the prompt block raises exactly the exceptions the graph run
    raises.  Reading the last message of the returned state never fails,
    as the state a run returns is never empty. *)
Theorem prompt_block_raises_what_the_graph_raises (W : Type) (C : Collaborators W)
    (limit : nat) (prompt : string) (r : Runtime W) (e : exn) :
  outcome (process_new_prompt limit prompt r) = Exc e
  <-> outcome (app_invoke limit {| messages := [HumanMessage prompt] |} (world r)) = Exc e.
Proof.
  rewrite process_new_prompt_unfold.
  destruct (app_invoke limit {| messages := [HumanMessage prompt] |} (world r))
    as [[[final|e0] w'] t] eqn:Hrun.
  - destruct (run_from_returned _ _ _ _ _ _ _ Hrun) as [[answer Hlast] _].
    rewrite Hlast. unfold outcome. cbn. split; discriminate.
  - unfold outcome. cbn. split; intros H; injection H as <-; reflexivity.
Qed.

(** X6: a run of the script that has processed a prompt, the graph having
    returned, ends by [st.rerun()] exactly when the counter has reached
    [MAX_QUESTIONS], which is exactly when the chat input of the next run
    will be disabled; otherwise the run ends normally. *)
Theorem rerun_exactly_when_budget_reached (W : Type) (C : Collaborators W)
    (limit : nat) (chat_input : bool -> option string) (text : string) (r : Runtime W)
    (final : AgentState) (w' : W) (t : list Event) :
  chat_input (is_disabled (session r)) = Some text ->
  text <> "" ->
  app_invoke limit {| messages := [HumanMessage text] |} (world r) = (Ret final, w', t) ->
  outcome (script_run limit chat_input r)
  = (if MAX_QUESTIONS <=? session_state.question_count (session r) + 1
     then Exc RerunException
     else Ret tt)
  /\ is_disabled (session (state_after (script_run limit chat_input r)))
     = (MAX_QUESTIONS <=? session_state.question_count (session r) + 1).
Proof.
  intros Hinput Htext Hrun.
  destruct (process_new_prompt_returned _ _ _ _ _ _ Hrun) as (answer & _ & Heq).
  apply String.eqb_neq in Htext. split.
  - rewrite script_run_unfold, Hinput, Htext, Heq. cbn [session session_state.question_count].
    now destruct (MAX_QUESTIONS <=? session_state.question_count (session r) + 1).
  - rewrite script_run_state, Hinput, Htext, Heq.
    unfold is_disabled, questions_left, MAX_QUESTIONS.
    cbn [state_after fst snd session session_state.question_count].
    destruct (Z.leb_spec (4 - (session_state.question_count (session r) + 1)) 0);
      destruct (Z.leb_spec 4 (session_state.question_count (session r) + 1));
      try reflexivity; lia.
Qed.

Lemma rerun_exactly_when_budget_reached_witness :
  outcome (script_run (C := scripted "$150") 3 (chat_input_widget (Some "Apple?")) first_visit)
  = (if MAX_QUESTIONS <=? session_state.question_count (session first_visit) + 1
     then Exc RerunException
     else Ret tt)
  /\ is_disabled
       (session (state_after (script_run (C := scripted "$150") 3
                                (chat_input_widget (Some "Apple?")) first_visit)))
     = (MAX_QUESTIONS <=? session_state.question_count (session first_visit) + 1).
Proof.
  apply (rerun_exactly_when_budget_reached (list BaseMessage) (scripted "$150") 3
           (chat_input_widget (Some "Apple?")) "Apple?" first_visit
           {| messages := [HumanMessage "Apple?";
                           AIMessage "" [search_call "Apple stock price"];
                           ToolMessage "$150" "call_1";
                           AIMessage "Apple trades at $150" []] |}
           []
           [ModelCall [HumanMessage "Apple?"]
              (inr (AIMessage "" [search_call "Apple stock price"]));
            ToolNodeCall [HumanMessage "Apple?";
                          AIMessage "" [search_call "Apple stock price"]]
              (inr [ToolMessage "$150" "call_1"]);
            ModelCall [HumanMessage "Apple?";
                       AIMessage "" [search_call "Apple stock price"];
                       ToolMessage "$150" "call_1"]
              (inr (AIMessage "Apple trades at $150" []))]).
  - reflexivity.
  - discriminate.
  - reflexivity.
Defined.

(** X7: once nothing is left of the budget, no later run changes the
    session or the collaborators' world, however many runs follow, as long
    as the chat input delivers nothing while disabled. *)
Theorem spent_budget_is_final (W : Type) (C : Collaborators W)
    (limit : nat) (widgets : list (bool -> option string)) (r : Runtime W) :
  questions_left (session r) <= 0 ->
  Forall honours_disabled widgets ->
  run_session limit widgets r = r.
Proof.
  intros Hleft Hall. induction Hall as [|chat_input rest Hwidget _ IH]; [reflexivity|].
  cbn [run_session fold_left]. rewrite script_run_state.
  assert (Hdisabled : is_disabled (session r) = true)
    by (unfold is_disabled; now apply Z.leb_le).
  unfold honours_disabled in Hwidget. rewrite Hdisabled, Hwidget. exact IH.
Qed.

Lemma spent_budget_is_final_witness :
  run_session (C := scripted "") 1
    [chat_input_widget (Some "q5"); chat_input_widget None; chat_input_widget (Some "q6")]
    budget_spent
  = budget_spent.
Proof.
  apply (spent_budget_is_final (list BaseMessage) (scripted "") 1
           [chat_input_widget (Some "q5"); chat_input_widget None;
            chat_input_widget (Some "q6")]
           budget_spent).
  - vm_compute. discriminate.
  - repeat constructor.
Defined.

(** X8: a run in which the chat input returns nothing, or returns the
    empty string, processes no prompt: it ends normally, leaves the session
    and the world as they were, and calls neither the model nor the tool
    node. *)
Theorem falsy_prompt_is_ignored (W : Type) (C : Collaborators W)
    (limit : nat) (chat_input : bool -> option string) (r : Runtime W) :
  truthy (chat_input (is_disabled (session r))) = false ->
  script_run limit chat_input r
  = (Ret tt, r, head_calls (session r) ++ tail_calls (session r))
  /\ model_invocations (calls_made (script_run limit chat_input r)) = 0%nat
  /\ tool_invocations (calls_made (script_run limit chat_input r)) = 0%nat.
Proof.
  intros Hfalsy.
  assert (Hrun : script_run limit chat_input r
                 = (Ret tt, r, head_calls (session r) ++ tail_calls (session r))).
  { rewrite script_run_unfold. unfold truthy in Hfalsy.
    destruct (chat_input (is_disabled (session r))) as [text|]; [|reflexivity].
    destruct (String.eqb text ""); [reflexivity|discriminate Hfalsy]. }
  split; [exact Hrun|]. rewrite Hrun. cbn [calls_made snd].
  apply page_calls_reach_no_collaborator, idle_calls_are_page_calls.
Qed.

Lemma falsy_prompt_is_ignored_witness :
  script_run (C := scripted "") 3 (fun _ => Some "") first_visit
  = (Ret tt, first_visit,
     head_calls (session first_visit) ++ tail_calls (session first_visit))
  /\ model_invocations
       (calls_made (script_run (C := scripted "") 3 (fun _ => Some "") first_visit)) = 0%nat
  /\ tool_invocations
       (calls_made (script_run (C := scripted "") 3 (fun _ => Some "") first_visit)) = 0%nat.
Proof.
  apply (falsy_prompt_is_ignored (list BaseMessage) (scripted "") 3
           (fun _ => Some "") first_visit).
  reflexivity.
Defined.

(** ** What every session keeps true of its stored history *)

Lemma count_role_app (who : string) (a b : list ChatEntry) :
  count_role who (a ++ b) = (count_role who a + count_role who b)%nat.
Proof. unfold count_role. now rewrite filter_app, length_app. Qed.

Lemma question_answer_shape_app (l l' : list ChatEntry) :
  (forall answerable, question_answer_shape answerable l' = true) ->
  forall answerable,
    question_answer_shape answerable l = true ->
    question_answer_shape answerable (l ++ l') = true.
Proof.
  intros Htail. induction l as [|entry rest IH]; intros answerable Hl; [apply Htail|].
  cbn [app question_answer_shape] in Hl |- *.
  destruct (String.eqb (role entry) "user"); [now apply IH|].
  destruct (String.eqb (role entry) "assistant"); [|discriminate Hl].
  apply andb_prop in Hl. destruct Hl as [-> Hrest]. cbn. now apply IH.
Qed.

Section SessionInvariants.
Context {W : Type} {C : Collaborators W}.

(** A property of the session that every prompt block keeps is kept by
    every run of the script and by every sequence of runs. *)
Lemma run_session_keeps (P : session_state.t -> Prop) (limit : nat) :
  (forall (text : string) (r : Runtime W),
      P (session r) -> P (session (state_after (process_new_prompt limit text r)))) ->
  forall (widgets : list (bool -> option string)) (r : Runtime W),
    P (session r) -> P (session (run_session limit widgets r)).
Proof.
  intros Hblock widgets. induction widgets as [|chat_input rest IH]; intros r HP;
    [exact HP|].
  cbn [run_session fold_left]. apply IH. rewrite script_run_state.
  destruct (chat_input (is_disabled (session r))) as [text|]; [|exact HP].
  destruct (String.eqb text ""); [exact HP|]. now apply Hblock.
Qed.

Lemma process_new_prompt_counts_user (limit : nat) (text : string) (r : Runtime W) :
  Z.of_nat (count_role "user" (session_state.messages (session r)))
  = session_state.question_count (session r) ->
  Z.of_nat (count_role "user"
              (session_state.messages
                 (session (state_after (process_new_prompt limit text r)))))
  = session_state.question_count (session (state_after (process_new_prompt limit text r))).
Proof.
  intros Hinv.
  destruct (process_new_prompt_session limit text r) as [Hcount [Hone|[answer Htwo]]];
    rewrite Hcount; [rewrite Hone|rewrite Htwo];
    rewrite count_role_app; cbn [count_role filter role String.eqb Ascii.eqb Bool.eqb
                                   List.length]; cbn; lia.
Qed.

Lemma process_new_prompt_keeps_shape (limit : nat) (text : string) (r : Runtime W) :
  question_answer_shape false (session_state.messages (session r)) = true ->
  question_answer_shape false
    (session_state.messages (session (state_after (process_new_prompt limit text r))))
  = true.
Proof.
  intros Hinv.
  destruct (process_new_prompt_session limit text r) as [_ [Hone|[answer Htwo]]];
    [rewrite Hone|rewrite Htwo]; apply question_answer_shape_app; auto.
Qed.

Lemma process_new_prompt_length (limit : nat) (text : string) (r : Runtime W) :
  Z.of_nat (List.length (session_state.messages (session r)))
  <= 2 * session_state.question_count (session r) ->
  Z.of_nat (List.length
              (session_state.messages
                 (session (state_after (process_new_prompt limit text r)))))
  <= 2 * session_state.question_count
           (session (state_after (process_new_prompt limit text r))).
Proof.
  intros Hinv.
  destruct (process_new_prompt_session limit text r) as [Hcount [Hone|[answer Htwo]]];
    rewrite Hcount; [rewrite Hone|rewrite Htwo];
    rewrite length_app; cbn [List.length]; lia.
Qed.

End SessionInvariants.

(** X9: in every session, whatever the chat input delivers and whatever
    the collaborators do, the number of stored user entries equals the
    question counter. *)
Theorem stored_questions_match_counter (W : Type) (C : Collaborators W)
    (limit : nat) (widgets : list (bool -> option string)) (w : W) :
  Z.of_nat
    (count_role "user"
       (session_state.messages
          (session (run_session limit widgets {| session := fresh_session; world := w |}))))
  = session_state.question_count
      (session (run_session limit widgets {| session := fresh_session; world := w |})).
Proof.
  apply (run_session_keeps
           (fun s => Z.of_nat (count_role "user" (session_state.messages s))
                     = session_state.question_count s)).
  - intros text r. apply process_new_prompt_counts_user.
  - reflexivity.
Qed.

(** X10: in every session the stored history holds only user entries and
    assistant entries, starts with a user entry when it is not empty, and
    has every assistant entry right after a user entry: no answer is
    stored without its question, and no two answers follow each other. *)
Theorem stored_history_is_questions_and_answers (W : Type) (C : Collaborators W)
    (limit : nat) (widgets : list (bool -> option string)) (w : W) :
  question_answer_shape false
    (session_state.messages
       (session (run_session limit widgets {| session := fresh_session; world := w |})))
  = true.
Proof.
  apply (run_session_keeps
           (fun s => question_answer_shape false (session_state.messages s) = true)).
  - intros text r. apply process_new_prompt_keeps_shape.
  - reflexivity.
Qed.

(** X11: in a session whose chat input delivers nothing while disabled,
    the stored history never holds more than two entries per allowed
    question, eight in all. *)
Theorem stored_history_is_bounded (W : Type) (C : Collaborators W)
    (limit : nat) (widgets : list (bool -> option string)) (w : W) :
  Forall honours_disabled widgets ->
  (List.length
     (session_state.messages
        (session (run_session limit widgets {| session := fresh_session; world := w |})))
   <= 8)%nat.
Proof.
  intros Hall.
  assert (Hcount : 0 <= session_state.question_count
                          (session (run_session limit widgets
                                      {| session := fresh_session; world := w |}))
                     <= MAX_QUESTIONS).
  { apply run_session_within_budget; [exact Hall|]. cbn. unfold MAX_QUESTIONS. lia. }
  assert (Hlen : Z.of_nat
                   (List.length
                      (session_state.messages
                         (session (run_session limit widgets
                                     {| session := fresh_session; world := w |}))))
                 <= 2 * session_state.question_count
                          (session (run_session limit widgets
                                      {| session := fresh_session; world := w |}))).
  { apply (run_session_keeps
             (fun s => Z.of_nat (List.length (session_state.messages s))
                       <= 2 * session_state.question_count s)).
    - intros text r. apply process_new_prompt_length.
    - cbn. lia. }
  unfold MAX_QUESTIONS in Hcount. lia.
Qed.

Lemma stored_history_is_bounded_witness :
  (List.length (session_state.messages (session budget_spent)) <= 8)%nat.
Proof.
  apply (stored_history_is_bounded (list BaseMessage) (scripted "") 1
           [chat_input_widget (Some "q1"); chat_input_widget (Some "q2");
            chat_input_widget (Some "q3"); chat_input_widget (Some "q4")]
           [AIMessage "a1" []; AIMessage "a2" []; AIMessage "a3" [];
            AIMessage "a4" []; AIMessage "a5" []]).
  repeat constructor.
Defined.

(** X12: in a run that processes a prompt while questions are left, the
    info box shows the number of questions left before this prompt was
    counted; after the run one question fewer is left than the box said. *)
Theorem info_box_shows_count_before_the_prompt (W : Type) (C : Collaborators W)
    (limit : nat) (chat_input : bool -> option string) (text : string) (r : Runtime W) :
  0 < questions_left (session r) ->
  chat_input false = Some text ->
  text <> "" ->
  In (Ui (Info (questions_left (session r)))) (calls_made (script_run limit chat_input r))
  /\ questions_left (session (state_after (script_run limit chat_input r)))
     = questions_left (session r) - 1.
Proof.
  intros Hleft Hinput Htext.
  assert (Henabled : is_disabled (session r) = false)
    by (unfold is_disabled; apply Z.leb_gt; lia).
  apply String.eqb_neq in Htext. split.
  - assert (Hhead : In (Ui (Info (questions_left (session r)))) (head_calls (session r))).
    { unfold head_calls. rewrite Henabled. cbn [negb]. right.
      apply in_or_app. right. now left. }
    rewrite script_run_unfold, Henabled, Hinput, Htext.
    destruct (process_new_prompt limit text r) as [[[answer|e] r1] t];
      [destruct (MAX_QUESTIONS <=? session_state.question_count (session r1))|];
      cbn [calls_made snd]; apply in_or_app; now left.
  - rewrite script_run_state, Henabled, Hinput, Htext.
    unfold questions_left.
    destruct (process_new_prompt_session limit text r) as [Hcount _].
    rewrite Hcount. lia.
Qed.

Lemma info_box_shows_count_before_the_prompt_witness :
  In (Ui (Info (questions_left (session first_visit))))
    (calls_made (script_run (C := scripted "$150") 3 (chat_input_widget (Some "Apple?"))
                   first_visit))
  /\ questions_left
       (session (state_after (script_run (C := scripted "$150") 3
                                (chat_input_widget (Some "Apple?")) first_visit)))
     = questions_left (session first_visit) - 1.
Proof.
  apply (info_box_shows_count_before_the_prompt (list BaseMessage) (scripted "$150") 3
           (chat_input_widget (Some "Apple?")) "Apple?" first_visit).
  - vm_compute. reflexivity.
  - reflexivity.
  - discriminate.
Defined.

(** X13: every run of the script, however it ends, first shows the title
    and then every stored entry, its role and then its content, in the
    order stored. *)
Theorem every_run_shows_stored_history_first (W : Type) (C : Collaborators W)
    (limit : nat) (chat_input : bool -> option string) (r : Runtime W) :
  exists rest,
    calls_made (script_run limit chat_input r)
    = Ui (Title "🧠 Smart Research Assistant")
        :: display_calls (session_state.messages (session r)) ++ rest.
Proof.
  rewrite script_run_unfold. unfold head_calls.
  destruct (chat_input (is_disabled (session r))) as [text|];
    [destruct (String.eqb text "");
     [|destruct (process_new_prompt limit text r) as [[[answer|e] r1] t];
       [destruct (MAX_QUESTIONS <=? session_state.question_count (session r1))|]]|];
    cbn [calls_made snd app]; rewrite <- app_assoc; eexists; reflexivity.
Qed.
